(** * monerium/go-sdk: a shallow embedding of the client and of the order
      notification listener

    The development follows the Go sources under [monerium/]:
    - [orders.go]   : [PlaceOrder], [PlaceOrderRequest.Validate], [GetOrder],
                      [OrdersNotifications], [readOrder], [newOrderFrom];
    - [client.go]   : [Client], [get], [post], [newErrorFrom],
                      [dialWebsocket], [newAuthorizationHeaderFrom];
    - [profiles.go] : [GetProfile], [GetProfileRequest.Validate].

    Conventions.
    - A Go pointer [*T] is an [option T]; [nil] is [None].
    - A Go [error] interface value is an [option error]; [nil] is [None].
    - A Go function returning [(T, error)] returns a pair, as in the source.
    - [[]byte] and [string] are both [string] (a sequence of bytes).
    - Calls that leave the process (token source, websocket, HTTP, channel
      send, goroutine start) are recorded, in program order, in a trace of
      [event]s; a run-time panic stops the function that raised it.
    - Functions of imported packages (encoding/json, net/http, nhooyr
      websocket, oauth2) are not part of the repository: they are Section
      variables, and every theorem holds for all of their behaviours. *)

From Stdlib Require Import String List ZArith Bool Lia.
Import ListNotations.
Open Scope list_scope.
Open Scope string_scope.

Set Implicit Arguments.

(** ** Go error values *)

(** [errors_New msg] is [errors.New(msg)], also used for [fmt.Errorf] without
    a [%w] verb and for the errors of imported packages;
    [fmt_Errorf_w p e] is [fmt.Errorf(p + "%w", e)]. *)
Inductive error : Type :=
| errors_New (msg : string)
| fmt_Errorf_w (prefix : string) (cause : error).

(** The [Error()] method. *)
Fixpoint Error_string (e : error) : string :=
  match e with
  | errors_New msg => msg
  | fmt_Errorf_w p c => p ++ Error_string c
  end.

(** [errors.Unwrap]. *)
Definition errors_Unwrap (e : error) : option error :=
  match e with
  | errors_New _ => None
  | fmt_Errorf_w _ c => Some c
  end.

(** Results of decoders of imported packages: a value or an error. *)
Inductive result (A : Type) : Type :=
| Ok (a : A)
| Err (e : error).
Arguments Ok {A} a.
Arguments Err {A} e.

Definition bytes := string.

(** Go's [s == EmptyString] and [s != EmptyString]. *)
Definition is_empty (s : string) : bool := String.eqb s EmptyString.

(** ** Named string types and their constants (orders.go, unnamed part) *)

Definition OrderKind := string.
Definition OrderKindRedeem : OrderKind := "redeem".
Definition OrderKindIssue : OrderKind := "issue".

Definition OrderState := string.
Definition OrderStatePlaced : OrderState := "placed".
Definition OrderStatePending : OrderState := "pending".
Definition OrderStateProcessed : OrderState := "processed".
Definition OrderStateRejected : OrderState := "rejected".

Definition Chain := string.
Definition ChainEthereum : Chain := "ethereum".
Definition ChainPolygon : Chain := "polygon".
Definition ChainGnosis : Chain := "gnosis".

Definition Currency := string.
Definition CurrencyEUR : Currency := "eur".
Definition CurrencyUSD : Currency := "usd".
Definition CurrencyGBP : Currency := "gbp".
Definition CurrencyISK : Currency := "isk".

(** [time.Time], as an instant in nanoseconds; the zero value is [0]. *)
Definition time_Time := Z.

(** ** Structs of orders.go *)

Module Identifier.
Record t : Type := Build { Standard : string; IBAN : string }.
Definition zero : t := {| Standard := EmptyString; IBAN := EmptyString |}.
End Identifier.

Module CounterpartDetails.
Record t : Type := Build
    { Country : string; FirstName : string; LastName : string }.
Definition zero : t := {| Country := EmptyString; FirstName := EmptyString; LastName := EmptyString |}.
End CounterpartDetails.

Module Counterpart.
Record t : Type := Build
    { Identifier : Identifier.t; Details : CounterpartDetails.t }.
Definition zero : t :=
    {| Identifier := Identifier.zero; Details := CounterpartDetails.zero |}.
End Counterpart.

Module OrderMeta.
Record t : Type := Build
    { ApprovedAt : time_Time;
      ProcessedAt : time_Time;
      RejectedAt : time_Time;
      State : OrderState;
      PlacedBy : string;
      PlacedAt : time_Time;
      ReceivedAmount : string;
      SentAmount : string }.
Definition zero : t :=
    {| ApprovedAt := 0%Z; ProcessedAt := 0%Z; RejectedAt := 0%Z; State := EmptyString;
       PlacedBy := EmptyString; PlacedAt := 0%Z; ReceivedAmount := EmptyString; SentAmount := EmptyString |}.
End OrderMeta.

Module Order.
Record t : Type := Build
    { ID : string;
      Profile : string;
      AccountID : string;
      Address : string;
      Kind : OrderKind;
      Amount : string;
      Currency : Currency;
      Counterpart : Counterpart.t;
      Memo : string;
      RejectedReason : string;
      SupportingDocumentID : string;
      Meta : OrderMeta.t }.
Definition zero : t :=
    {| ID := EmptyString; Profile := EmptyString; AccountID := EmptyString; Address := EmptyString; Kind := EmptyString;
       Amount := EmptyString; Currency := EmptyString; Counterpart := Counterpart.zero;
       Memo := EmptyString; RejectedReason := EmptyString; SupportingDocumentID := EmptyString;
       Meta := OrderMeta.zero |}.
End Order.

Module PlaceOrderRequest.
Record t : Type := Build
    { Address : string;
      Currency : Currency;
      Chain : Chain;
      AccountID : string;
      Kind : OrderKind;
      Amount : string;
      Signature : string;
      Message : string;
      Counterpart : option Counterpart.t;
      Memo : string;
      SupportingDocumentID : string }.

(** [func (r *PlaceOrderRequest) Validate() error]. *)
Definition Validate (r : option t) : option error :=
    match r with
    | None => Some (errors_New "PlaceOrderRequest is required")
    | Some r =>
      if negb (String.eqb (Kind r) OrderKindRedeem) then
        Some (errors_New "only redeem order is possible to be placed")
      else
      match Counterpart r with
      | None => Some (errors_New "order counterpart is missing")
      | Some _ =>
        if is_empty (Message r) || is_empty (Signature r) then
          Some (errors_New "message or signature missing")
        else if negb (is_empty (AccountID r)) then
          None
        else if is_empty (Chain r) || is_empty (Currency r)
                || is_empty (Address r) then
          Some (errors_New
            "either AccountID or Chain, Address and Currency are required")
        else None
      end
    end.
End PlaceOrderRequest.

Module GetOrderRequest.
Record t : Type := Build { OrderID : string }.
End GetOrderRequest.

Module OrdersNotificationsRequest.
Record t : Type := Build { ProfileID : string }.
End OrdersNotificationsRequest.

Module OrderResult.
Record t : Type := Build { Order : option Order.t; Error : option error }.
End OrderResult.

(** ** Structs of profiles.go *)

Module KYCDetails.
Record t : Type := Build { State : string; Outcome : string }.
End KYCDetails.

Module Account.
Record t : Type := Build
    { Address : string; Chain : Chain; Network : string; Currency : Currency;
      Standard : string; IBAN : string; State : string; SortCode : string;
      AccountNumber : string }.
End Account.

Module Profile.
Record t : Type := Build
    { ID : string; Name : string; KYC : KYCDetails.t;
      Accounts : list Account.t }.
End Profile.

Module GetProfileRequest.
Record t : Type := Build { ProfileID : string }.

(** [func (r *GetProfileRequest) Validate() error]. *)
Definition Validate (r : option t) : option error :=
    match r with
    | None => Some (errors_New "GetProfileRequest is required")
    | Some r =>
      if is_empty (ProfileID r) then Some (errors_New "empty profileID")
      else None
    end.
End GetProfileRequest.

(** ** Imported packages: net/http, oauth2, nhooyr websocket, time *)

(** [http.Header], a [map[string][]string], as an association list. *)
Definition Header := list (string * list string).

Fixpoint Header_lookup (h : Header) (k : string) : option (list string) :=
  match h with
  | [] => None
  | (k', v) :: h' => if String.eqb k' k then Some v else Header_lookup h' k
  end.

Definition MethodGet : string := "GET".
Definition MethodPost : string := "POST".
Definition StatusOK : Z := 200%Z.
Definition StatusAccepted : Z := 202%Z.

Module Request.
Record t : Type := Build
  { Method : string; URL : string; Body : option bytes }.
End Request.

(** An [*http.Response]; [Body] is what [io.ReadAll(resp.Body)] returns. *)
Module Response.
Record t : Type := Build
  { StatusCode : Z; Body : result bytes; Header : Header }.
End Response.

(** [*http.Client]: the outcome of [Do] on a request. *)
Record http_Client : Type :=
  { Do : Request.t -> result Response.t }.

(** [*oauth2.Token] and [oauth2.TokenSource]. *)
Module Token.
Record t : Type := Build { AccessToken : string }.
End Token.

Record TokenSource : Type :=
  { Token : unit -> result Token.t }.

(** [websocket.MessageType] and its [String] method. *)
Inductive MessageType : Type := MessageText | MessageBinary.

Definition MessageType_String (mt : MessageType) : string :=
  match mt with
  | MessageText => "MessageText"
  | MessageBinary => "MessageBinary"
  end.

Definition MessageType_eqb (a b : MessageType) : bool :=
  match a, b with
  | MessageText, MessageText | MessageBinary, MessageBinary => true
  | _, _ => false
  end.

(** [websocket.StatusCode]. *)
Definition StatusNormalClosure : Z := 1000%Z.

(** What one [conn.Read(ctx)] returns: [(0, nil, err)] or [(mt, bs, nil)]. *)
Inductive ReadResult : Type :=
| ReadFailed (err : error)
| ReadFrame (mt : MessageType) (bs : bytes).

(** Handles of a websocket connection and of a channel. *)
Definition Conn := nat.
Definition Chan := nat.

(** [time.Duration], in nanoseconds. *)
Definition Duration := Z.
Definition Millisecond : Duration := 1000000%Z.

(** ** Client (client.go) *)

Record Client : Type :=
  { baseURL : string;
    wsURL : string;
    httpClient : http_Client;
    tokenSource : TokenSource;
    notifyTick : Duration }.

(** What the goroutine of [OrdersNotifications] captures. *)
Record listener (Context : Type) : Type :=
  { l_ctx : Context; l_wc : Conn; l_os : Chan; l_ticker : Duration }.

(** ** Observable events

    A send [os <- r] is recorded when it is made and is taken to complete:
    the sink is an open channel that the caller keeps receiving from (a
    send that nobody receives blocks the goroutine at that point). *)

Inductive event (Context : Type) : Type :=
| EvToken                                  (* c.tokenSource.Token() *)
| EvDial (url : string) (hdr : Header)     (* websocket.Dial *)
| EvHTTP (r : Request.t)                   (* c.httpClient.Do(r) *)
| EvGo (l : listener Context)              (* go func() { ... }() *)
| EvRead (wc : Conn)                       (* conn.Read(ctx) *)
| EvClose (wc : Conn) (code : Z) (reason : string)   (* wc.Close *)
| EvSend (os : Chan) (r : OrderResult.t).  (* os <- r *)
Arguments EvToken {Context}.
Arguments EvDial {Context} url hdr.
Arguments EvHTTP {Context} r.
Arguments EvRead {Context} wc.
Arguments EvClose {Context} wc code reason.
Arguments EvSend {Context} os r.

(** ** A function call: its events, then a return value or a panic *)

Inductive outcome (A : Type) : Type :=
| Returned (a : A)
| Panicked (msg : string).
Arguments Returned {A} a.
Arguments Panicked {A} msg.

Definition Go (E A : Type) : Type := (list E * outcome A)%type.

Definition ret {E A : Type} (a : A) : Go E A := ([], Returned a).
Definition panic {E A : Type} (msg : string) : Go E A := ([], Panicked msg).
Definition emit {E : Type} (e : E) : Go E unit := ([e], Returned tt).

Definition bind {E A B : Type} (m : Go E A) (k : A -> Go E B) : Go E B :=
  match m with
  | (tr, Returned a) => let '(tr', r) := k a in ((tr ++ tr')%list, r)
  | (tr, Panicked msg) => (tr, Panicked msg)
  end.

Notation "x <- m ;; k" := (bind m (fun x => k))
  (at level 61, m at next level, right associativity).
Notation "m ;;; k" := (bind m (fun _ => k))
  (at level 61, right associativity).

Definition trace {E A : Type} (m : Go E A) : list E := fst m.
Definition value {E A : Type} (m : Go E A) : outcome A := snd m.

(** [errorResponse] (client.go); [Errors] is a [json.RawMessage]. *)
Module errorResponse.
Record t : Type := Build
  { Code : Z;
    Status : string;
    Message : string;
    Details_ID : string;
    Details_Method : string;
    Details_Resource : string;
    Errors : option bytes;
    CorrelationID : string }.
End errorResponse.

(** The functions of imported packages that the client calls.  A context is
    only ever handed to them, so its type is left open. *)
Record Imports (Context : Type) : Type :=
  { (* the error of http.NewRequestWithContext(ctx, method, url, body), if
       any; otherwise the request carries this method, url and body *)
    http_NewRequestWithContext_err :
      Context -> string -> string -> option error;
    (* json.Marshal(req), for req of any type *)
    json_Marshal : forall A : Type, A -> result bytes;
    (* json.Unmarshal(bs, &o) for o of type Order, *Order, Profile and
       errorResponse *)
    json_Unmarshal_Order : bytes -> result Order.t;
    json_Unmarshal_OrderPtr : bytes -> result (option Order.t);
    json_Unmarshal_Profile : bytes -> result Profile.t;
    json_Unmarshal_errorResponse : bytes -> result errorResponse.t;
    (* fmt.Errorf(msg): msg is used as the format, without operands *)
    fmt_Errorf_format : string -> error;
    (* websocket.Dial(ctx, url, &DialOptions{HTTPHeader: hdr}) *)
    websocket_Dial : Context -> string -> Header -> result Conn }.

Section SDK.

Variable Context : Type.
Variable lib : Imports Context.

Local Abbreviation Ev := (event Context).

(** *** client.go *)

(** [newAuthorizationHeaderFrom]. *)
Definition newAuthorizationHeaderFrom (tok : Token.t) : Header :=
  let bearer := "Bearer " ++ Token.AccessToken tok in
  [("Authorization", [bearer])].

(** [dialWebsocket]. *)
Definition dialWebsocket (ctx : Context) (path : string) (tok : Token.t)
  : Go Ev (result Conn) :=
  let hdr := newAuthorizationHeaderFrom tok in
  emit (EvDial path hdr) ;;;
  ret (websocket_Dial lib ctx path hdr).

(** [newErrorFrom]; [corrID[0]] panics on an empty slice. *)
Definition newErrorFrom (callName : string) (body : bytes) (header : Header)
  : Go Ev error :=
  match json_Unmarshal_errorResponse lib body with
  | Err err => ret err
  | Ok errResp =>
    let msg := callName ++ " call failed due to: "
                 ++ errorResponse.Message errResp in
    msg <- match Header_lookup header "X-Correlation-Id" with
           | Some corrID =>
             match corrID with
             | [] => panic "index out of range [0] with length 0"
             | c0 :: _ => ret (msg ++ ". CorrelationID: " ++ c0)
             end
           | None => ret msg
           end ;;
    let msg := match errorResponse.Errors errResp with
               | Some raw => msg ++ ". Details: " ++ raw
               | None => msg
               end in
    ret (fmt_Errorf_format lib msg)
  end.

(** The part of [get], [post] shared after the request is built:
    [c.httpClient.Do(r)], [io.ReadAll], the status check. *)
Definition roundTrip (c : Client) (path : string) (r : Request.t)
  (accepted : Z -> bool) : Go Ev (bytes * option error) :=
  emit (EvHTTP r) ;;;
  match Do (httpClient c) r with
  | Err err => ret (EmptyString, Some err)
  | Ok resp =>
    match Response.Body resp with
    | Err err => ret (EmptyString, Some err)
    | Ok bs =>
      if negb (accepted (Response.StatusCode resp)) then
        e <- newErrorFrom path bs (Response.Header resp) ;;
        ret (EmptyString, Some e)
      else ret (bs, None)
    end
  end.

(** [func (c *Client) get]. *)
Definition get (c : Client) (ctx : Context) (path : string)
  : Go Ev (bytes * option error) :=
  match http_NewRequestWithContext_err lib ctx MethodGet (baseURL c ++ path)
  with
  | Some err => ret (EmptyString, Some err)
  | None =>
    let r := {| Request.Method := MethodGet;
                Request.URL := baseURL c ++ path;
                Request.Body := None |} in
    roundTrip c path r (fun s => Z.eqb s StatusOK)
  end.

(** [func (c *Client) post]. *)
Definition post {A : Type} (c : Client) (ctx : Context) (path : string)
  (req : A) : Go Ev (bytes * option error) :=
  match json_Marshal lib req with
  | Err err => ret (EmptyString, Some err)
  | Ok rs =>
    match http_NewRequestWithContext_err lib ctx MethodPost
            (baseURL c ++ path) with
    | Some err => ret (EmptyString, Some err)
    | None =>
      let r := {| Request.Method := MethodPost;
                  Request.URL := baseURL c ++ path;
                  Request.Body := Some rs |} in
      roundTrip c path r
        (fun s => Z.eqb s StatusOK || Z.eqb s StatusAccepted)
    end
  end.

(** *** orders.go *)

(** [func (c *Client) PlaceOrder]. *)
Definition PlaceOrder (c : Client) (ctx : Context)
  (req : option PlaceOrderRequest.t) : Go Ev (option Order.t * option error) :=
  match PlaceOrderRequest.Validate req with
  | Some err => ret (None, Some err)
  | None =>
    let path := "/orders" in
    r <- post c ctx path req ;;
    match r with
    | (_, Some err) => ret (None, Some err)
    | (bs, None) =>
      match json_Unmarshal_Order lib bs with
      | Err err => ret (None, Some err)
      | Ok o => ret (Some o, None)
      end
    end
  end.

(** [func (c *Client) GetOrder]; [req.OrderID] dereferences [req]. *)
Definition GetOrder (c : Client) (ctx : Context)
  (req : option GetOrderRequest.t) : Go Ev (option Order.t * option error) :=
  match req with
  | None => panic "invalid memory address or nil pointer dereference"
  | Some rq =>
    let path := "/orders/" ++ GetOrderRequest.OrderID rq in
    r <- get c ctx path ;;
    match r with
    | (_, Some err) => ret (None, Some err)
    | (bs, None) =>
      match json_Unmarshal_OrderPtr lib bs with
      | Err err => ret (None, Some err)
      | Ok o => ret (o, None)
      end
    end
  end.

(** *** profiles.go *)

(** [func (c *Client) GetProfile]. *)
Definition GetProfile (c : Client) (ctx : Context)
  (req : option GetProfileRequest.t)
  : Go Ev (option Profile.t * option error) :=
  match GetProfileRequest.Validate req, req with
  | Some err, _ => ret (None, Some err)
  | None, None => panic "invalid memory address or nil pointer dereference"
  | None, Some rq =>
    let path := "/profiles/" ++ GetProfileRequest.ProfileID rq in
    r <- get c ctx path ;;
    match r with
    | (_, Some err) => ret (None, Some err)
    | (bs, None) =>
      match json_Unmarshal_Profile lib bs with
      | Err err => ret (None, Some err)
      | Ok pr => ret (Some pr, None)
      end
    end
  end.

(** *** orders.go: the notification listener *)

(** [newOrderFrom]. *)
Definition newOrderFrom (bs : bytes) : option Order.t * option error :=
  match json_Unmarshal_Order lib bs with
  | Err err => (None, Some err)
  | Ok o => (Some o, None)
  end.

(** [readOrder]; [rd] is what [conn.Read(ctx)] returns this time. *)
Definition readOrder (ctx : Context) (conn : Conn) (rd : ReadResult)
  : Go Ev (option Order.t * option error) :=
  emit (EvRead conn) ;;;
  match rd with
  | ReadFailed err =>
    ret (None, Some (fmt_Errorf_w "failed to read from websocket: " err))
  | ReadFrame mt bs =>
    if negb (MessageType_eqb mt MessageText) then
      ret (None, Some (errors_New ("unsupported message type: "
                                     ++ MessageType_String mt)))
    else
      match newOrderFrom bs with
      | (_, Some err) =>
        ret (None, Some (fmt_Errorf_w "failed to build order: " err))
      | (o, None) => ret (o, None)
      end
  end.

(** [time.NewTicker(d)] panics unless [d] is positive. *)
Definition time_NewTicker (d : Duration) : Go Ev Duration :=
  if (d <=? 0)%Z then panic "non-positive interval for NewTicker"
  else ret d.

(** The case that one [select] of the goroutine takes: [<-ctx.Done()], with
    the value of [ctx.Err()] (not nil once [Done] is closed), or
    [<-ticker.C], with what the read of that tick returns. *)
Inductive selected : Type :=
| case_ctx_Done (ctx_Err : error)
| case_ticker_C (rd : ReadResult).

(** One iteration of the [for] loop of the goroutine; [true] is [return]. *)
Definition iteration (l : listener Context) (s : selected) : Go Ev bool :=
  match s with
  | case_ctx_Done ctx_Err =>
    emit (EvClose (l_wc l) StatusNormalClosure "stopping connection") ;;;
    emit (EvSend (l_os l)
            {| OrderResult.Order := None;
               OrderResult.Error := Some ctx_Err |}) ;;;
    ret true
  | case_ticker_C rd =>
    r <- readOrder (l_ctx l) (l_wc l) rd ;;
    let '(o, err) := r in
    match err with
    | Some e =>
      emit (EvSend (l_os l)
              {| OrderResult.Order := None;
                 OrderResult.Error :=
                   Some (fmt_Errorf_w "failed to read order: " e) |})
    | None => ret tt
    end ;;;
    emit (EvSend (l_os l)
            {| OrderResult.Order := o; OrderResult.Error := None |}) ;;;
    ret false
  end.

(** The goroutine along the cases its selects take; the value is [true] when
    it has returned and [false] while it waits in [select]. *)
Fixpoint goroutine (l : listener Context) (sched : list selected)
  : Go Ev bool :=
  match sched with
  | [] => ret false
  | s :: rest =>
    stop <- iteration l s ;;
    if stop then ret true else goroutine l rest
  end.

(** [func (c *Client) OrdersNotifications]. *)
Definition OrdersNotifications (c : Client) (ctx : Context)
  (req : option OrdersNotificationsRequest.t) (os : Chan)
  : Go Ev (option error) :=
  emit EvToken ;;;
  match Token (tokenSource c) tt with
  | Err err => ret (Some (fmt_Errorf_w "failed to get auth token: " err))
  | Ok tok =>
    let path := wsURL c ++ "/orders" in
    let path :=
      match req with
      | Some rq =>
        if negb (is_empty (OrdersNotificationsRequest.ProfileID rq)) then
          wsURL c ++ "/profiles/" ++ OrdersNotificationsRequest.ProfileID rq
            ++ "/orders"
        else path
      | None => path
      end in
    d <- dialWebsocket ctx path tok ;;
    match d with
    | Err err => ret (Some (fmt_Errorf_w "failed to dial websocket: " err))
    | Ok wc =>
      ticker <- time_NewTicker (notifyTick c) ;;
      emit (EvGo {| l_ctx := ctx; l_wc := wc; l_os := os;
                    l_ticker := ticker |}) ;;;
      ret None
    end
  end.

(** *** Observations on a trace *)

(** The goroutines a trace starts. *)
Definition spawned (tr : list Ev) : list (listener Context) :=
  flat_map (fun e => match e with EvGo l => [l] | _ => [] end) tr.

(** The values a trace sends on channel [os], in order. *)
Definition deliveries (os : Chan) (tr : list Ev) : list OrderResult.t :=
  flat_map (fun e => match e with
                     | EvSend os' r => if Nat.eqb os' os then [r] else []
                     | _ => []
                     end) tr.

(** The dials, the token requests and the HTTP requests of a trace. *)
Definition dials (tr : list Ev) : list (string * Header) :=
  flat_map (fun e => match e with EvDial u h => [(u, h)] | _ => [] end) tr.

Definition token_requests (tr : list Ev) : nat :=
  length (filter (fun e => match e with EvToken => true | _ => false end) tr).

Definition http_requests (tr : list Ev) : list Request.t :=
  flat_map (fun e => match e with EvHTTP r => [r] | _ => [] end) tr.

(** A whole subscription: the call, then the goroutine it started (if any)
    along [sched]. *)
Definition subscription (c : Client) (ctx : Context)
  (req : option OrdersNotificationsRequest.t) (os : Chan)
  (sched : list selected) : list Ev :=
  let call := trace (OrdersNotifications c ctx req os) in
  (call ++ flat_map (fun l => trace (goroutine l sched)) (spawned call))%list.

End SDK.

Arguments newOrderFrom {Context} lib bs.
Arguments time_NewTicker {Context} d.

(** ** Constants of client.go *)

Definition SandboxBaseURL : string := "https://api.monerium.dev".
Definition SandboxWebsocketURL : string := "wss://api.monerium.dev".
Definition ProductionBaseURL : string := "https://api.monerium.app".
Definition ProductionWebsocketURL : string := "wss://api.monerium.app".

(** The tick that [NewClient] sets. *)
Definition defaultNotifyTick : Duration := (500 * Millisecond)%Z.

(** ** The rest of the client: more requests, more calls

    A nil slice and an empty slice are both the empty list. *)

Module AddAddressToProfileRequest.
Record t : Type := Build
  { ProfileID : string;
    Address : string;
    Message : string;
    Signature : string;
    Accounts : list Account.t }.

(** [func (r *AddAddressToProfileRequest) Validate() error]. *)
Definition Validate (r : option t) : option error :=
  match r with
  | None => Some (errors_New "AddAddressToProfileRequest is required")
  | Some r =>
    if is_empty (ProfileID r) then Some (errors_New "empty profileID")
    else None
  end.
End AddAddressToProfileRequest.

Module GetBalancesForProfileRequest.
Record t : Type := Build { ProfileID : string }.

(** [func (r *GetBalancesForProfileRequest) Validate() error]. *)
Definition Validate (r : option t) : option error :=
  match r with
  | None => Some (errors_New "GetBalancesForProfileRequest is required")
  | Some _ => None
  end.
End GetBalancesForProfileRequest.

Module Balance.
Record t : Type := Build { Amount : string; Currency : string }.
End Balance.

Module ProfileBalance.
Record t : Type := Build
  { ProfileID : string; Address : string; Chain : string; Network : string;
    Balances : list (option Balance.t) }.
End ProfileBalance.

Module GetOrdersRequest.
Record t : Type := Build
  { Address : string; TxHash : string; Memo : string; State : OrderState;
    AccountID : string; ProfileID : string }.
End GetOrdersRequest.

Module AuthConfig.
Record t : Type := Build
  { ClientID : string; ClientSecret : string; TokenURL : string }.
End AuthConfig.

(** [clientcredentials.Config], with the fields that [NewClient] sets. *)
Module Config.
Record t : Type := Build
  { ClientID : string; ClientSecret : string; TokenURL : string }.
End Config.

(** The other functions of imported packages that the client calls. *)
Record MoreImports (Context : Type) : Type :=
  { (* json.Unmarshal(bs, &os) for os of type []*Order, []*ProfileBalance *)
    json_Unmarshal_Orders : bytes -> result (list (option Order.t));
    json_Unmarshal_ProfileBalances :
      bytes -> result (list (option ProfileBalance.t));
    (* query.Values(req), then v.Encode() on its value *)
    query_Values_Encode : GetOrdersRequest.t -> result string;
    (* conf.Client(ctx) and conf.TokenSource(ctx) *)
    Config_Client : Config.t -> Context -> http_Client;
    Config_TokenSource : Config.t -> Context -> TokenSource }.

(** [ClientOption]: an option updates the client under construction. *)
Definition ClientOption : Type := Client -> Client.

(** [WithNotifyTick]. *)
Definition WithNotifyTick (d : Duration) : ClientOption :=
  fun c =>
    {| baseURL := baseURL c; wsURL := wsURL c; httpClient := httpClient c;
       tokenSource := tokenSource c; notifyTick := d |}.

Section SDK_calls.

Variable Context : Type.
Variable lib : Imports Context.
Variable more : MoreImports Context.

Local Abbreviation Ev := (event Context).

(** [NewClient]; [auth.ClientID] dereferences [auth]. *)
Definition NewClient (ctx : Context) (baseURL wsURL : string)
  (auth : option AuthConfig.t) (opts : list ClientOption) : Go Ev Client :=
  match auth with
  | None => panic "invalid memory address or nil pointer dereference"
  | Some a =>
    let conf := {| Config.ClientID := AuthConfig.ClientID a;
                   Config.ClientSecret := AuthConfig.ClientSecret a;
                   Config.TokenURL := AuthConfig.TokenURL a |} in
    let cli := {| baseURL := baseURL;
                  wsURL := wsURL;
                  httpClient := Config_Client more conf ctx;
                  tokenSource := Config_TokenSource more conf ctx;
                  notifyTick := (500 * Millisecond)%Z |} in
    ret (fold_left (fun cli o => o cli) opts cli)
  end.

(** [func (c *Client) GetOrders]. *)
Definition GetOrders (c : Client) (ctx : Context)
  (req : option GetOrdersRequest.t)
  : Go Ev (list (option Order.t) * option error) :=
  let fetch (path : string) :=
    r <- get lib c ctx path ;;
    match r with
    | (_, Some err) => ret ([], Some err)
    | (bs, None) =>
      match json_Unmarshal_Orders more bs with
      | Err err => ret ([], Some err)
      | Ok os => ret (os, None)
      end
    end in
  match req with
  | Some rq =>
    match query_Values_Encode more rq with
    | Err err => ret ([], Some err)
    | Ok v => fetch ("/orders?" ++ v)
    end
  | None => fetch "/orders"
  end.

(** [func (c *Client) AddAddressToProfile]. *)
Definition AddAddressToProfile (c : Client) (ctx : Context)
  (req : option AddAddressToProfileRequest.t)
  : Go Ev (option Profile.t * option error) :=
  match AddAddressToProfileRequest.Validate req, req with
  | Some err, _ => ret (None, Some err)
  | None, None => panic "invalid memory address or nil pointer dereference"
  | None, Some rq =>
    let path := "/profiles/" ++ AddAddressToProfileRequest.ProfileID rq
                  ++ "/addresses" in
    r <- post lib c ctx path req ;;
    match r with
    | (_, Some err) => ret (None, Some err)
    | (bs, None) =>
      match json_Unmarshal_Profile lib bs with
      | Err err => ret (None, Some err)
      | Ok p => ret (Some p, None)
      end
    end
  end.

(** [func (c *Client) GetBalancesForProfile]. *)
Definition GetBalancesForProfile (c : Client) (ctx : Context)
  (req : option GetBalancesForProfileRequest.t)
  : Go Ev (list (option ProfileBalance.t) * option error) :=
  match GetBalancesForProfileRequest.Validate req, req with
  | Some err, _ => ret ([], Some err)
  | None, None => panic "invalid memory address or nil pointer dereference"
  | None, Some rq =>
    let path := "/profiles/" ++ GetBalancesForProfileRequest.ProfileID rq
                  ++ "/balances" in
    r <- get lib c ctx path ;;
    match r with
    | (_, Some err) => ret ([], Some err)
    | (bs, None) =>
      match json_Unmarshal_ProfileBalances more bs with
      | Err err => ret ([], Some err)
      | Ok pbs => ret (pbs, None)
      end
    end
  end.

End SDK_calls.

(** ** A concrete environment, for running the model

    The imported functions are fixed to simple behaviours that the real
    packages also show on the inputs used below: [{}] and [null] decode to
    the zero order, text that is not JSON is refused, a URL that holds a
    control byte is refused by [http.NewRequestWithContext], and a dial to
    a URL that is not [ws://] or [wss://] fails. *)
Module Demo.

Definition Context : Type := unit.

Definition isCTL (a : Ascii.ascii) : bool :=
  let n := Ascii.nat_of_ascii a in Nat.ltb n 32 || Nat.eqb n 127.

Fixpoint stringContainsCTLByte (s : string) : bool :=
  match s with
  | EmptyString => false
  | String a s' => isCTL a || stringContainsCTLByte s'
  end.

Definition Unmarshal_Order (bs : bytes) : result Order.t :=
  if String.eqb bs "{}" || String.eqb bs "null" then Ok Order.zero
  else Err (errors_New "invalid character looking for beginning of value").

Definition Unmarshal_OrderPtr (bs : bytes) : result (option Order.t) :=
  if String.eqb bs "{}" then Ok (Some Order.zero)
  else if String.eqb bs "null" then Ok None
  else Err (errors_New "invalid character looking for beginning of value").

Definition Unmarshal_Profile (bs : bytes) : result Profile.t :=
  if String.eqb bs "{}" || String.eqb bs "null" then
    Ok {| Profile.ID := EmptyString; Profile.Name := EmptyString;
          Profile.KYC := {| KYCDetails.State := EmptyString;
                            KYCDetails.Outcome := EmptyString |};
          Profile.Accounts := [] |}
  else Err (errors_New "invalid character looking for beginning of value").

Definition Unmarshal_errorResponse (bs : bytes) : result errorResponse.t :=
  if String.eqb bs "{}" || String.eqb bs "null" then
    Ok {| errorResponse.Code := 0%Z; errorResponse.Status := EmptyString;
          errorResponse.Message := EmptyString;
          errorResponse.Details_ID := EmptyString;
          errorResponse.Details_Method := EmptyString;
          errorResponse.Details_Resource := EmptyString;
          errorResponse.Errors := None;
          errorResponse.CorrelationID := EmptyString |}
  else Err (errors_New "invalid character looking for beginning of value").

Definition Dial (ctx : Context) (url : string) (hdr : Header) : result Conn :=
  if String.prefix "ws://" url || String.prefix "wss://" url then Ok 1
  else Err (errors_New "unexpected url scheme").

Definition lib : Imports Context :=
  {| http_NewRequestWithContext_err := fun _ _ url =>
       if stringContainsCTLByte url
       then Some (errors_New "net/url: invalid control character in URL")
       else None;
     json_Marshal := fun _ _ => Ok "{}";
     json_Unmarshal_Order := Unmarshal_Order;
     json_Unmarshal_OrderPtr := Unmarshal_OrderPtr;
     json_Unmarshal_Profile := Unmarshal_Profile;
     json_Unmarshal_errorResponse := Unmarshal_errorResponse;
     fmt_Errorf_format := errors_New;
     websocket_Dial := Dial |}.

(** A server that answers every request with [200] and [{}]. *)
Definition server : http_Client :=
  {| Do := fun _ => Ok {| Response.StatusCode := StatusOK;
                          Response.Body := Ok "{}";
                          Response.Header := [] |} |}.

Definition tokens : TokenSource :=
  {| Token := fun _ => Ok {| Token.AccessToken := "s3cr3t" |} |}.

Definition no_tokens : TokenSource :=
  {| Token := fun _ => Err (errors_New "oauth2: cannot fetch token") |}.

Definition client : Client :=
  {| baseURL := SandboxBaseURL; wsURL := SandboxWebsocketURL;
     httpClient := server; tokenSource := tokens;
     notifyTick := defaultNotifyTick |}.

Definition client_without_token : Client :=
  {| baseURL := SandboxBaseURL; wsURL := SandboxWebsocketURL;
     httpClient := server; tokenSource := no_tokens;
     notifyTick := defaultNotifyTick |}.

Definition client_bad_wsURL : Client :=
  {| baseURL := SandboxBaseURL; wsURL := "ftp://api.monerium.dev";
     httpClient := server; tokenSource := tokens;
     notifyTick := defaultNotifyTick |}.

Definition counterpart : Counterpart.t :=
  {| Counterpart.Identifier :=
       {| Identifier.Standard := "iban";
          Identifier.IBAN := "GR1601101250000000012300695" |};
     Counterpart.Details :=
       {| CounterpartDetails.Country := "GR";
          CounterpartDetails.FirstName := "Jane";
          CounterpartDetails.LastName := "Doe" |} |}.

Definition redeem : PlaceOrderRequest.t :=
  {| PlaceOrderRequest.Address := EmptyString;
     PlaceOrderRequest.Currency := EmptyString;
     PlaceOrderRequest.Chain := EmptyString;
     PlaceOrderRequest.AccountID := "3cef7bfc-8779-11ed-ac14-4a76448b7b21";
     PlaceOrderRequest.Kind := OrderKindRedeem;
     PlaceOrderRequest.Amount := "1";
     PlaceOrderRequest.Signature := "0x5f";
     PlaceOrderRequest.Message := "Send EUR 1 to GR16 at 2023";
     PlaceOrderRequest.Counterpart := Some counterpart;
     PlaceOrderRequest.Memo := EmptyString;
     PlaceOrderRequest.SupportingDocumentID := EmptyString |}.

Definition sink : Chan := 7.

Definition listening : listener Context :=
  {| l_ctx := tt; l_wc := 1; l_os := sink; l_ticker := defaultNotifyTick |}.

Definition context_Canceled : error := errors_New "context canceled".

End Demo.


(** ** Vocabulary of the specification *)

(** A delivered value is well formed when exactly one of its two fields is
    populated. *)
Definition exactly_one_populated (r : OrderResult.t) : bool :=
  match OrderResult.Order r, OrderResult.Error r with
  | Some _, None | None, Some _ => true
  | Some _, Some _ | None, None => false
  end.

(** A success result and an error result. *)
Definition success (o : Order.t) : OrderResult.t :=
  {| OrderResult.Order := Some o; OrderResult.Error := None |}.

Definition failure (e : error) : OrderResult.t :=
  {| OrderResult.Order := None; OrderResult.Error := Some e |}.

(** The result with neither field populated. *)
Definition unpopulated : OrderResult.t :=
  {| OrderResult.Order := None; OrderResult.Error := None |}.

(** A tick on which a text frame with payload [bs] is read. *)
Definition text_frame (bs : bytes) : selected :=
  case_ticker_C (ReadFrame MessageText bs).

(** A schedule in which the context is never found cancelled. *)
Definition is_tick (s : selected) : bool :=
  match s with case_ticker_C _ => true | case_ctx_Done _ => false end.

(** The error that a read reports, per kind of failure: the cause that the
    loop decorates. *)
Definition read_failure {Context : Type} (lib : Imports Context)
  (rd : ReadResult) : option error :=
  match rd with
  | ReadFailed err =>
    Some (fmt_Errorf_w "failed to read from websocket: " err)
  | ReadFrame MessageBinary _ =>
    Some (errors_New "unsupported message type: MessageBinary")
  | ReadFrame MessageText bs =>
    match json_Unmarshal_Order lib bs with
    | Err err => Some (fmt_Errorf_w "failed to build order: " err)
    | Ok _ => None
    end
  end.

(** The requests that the specification calls invalid for [PlaceOrder]. *)
Definition rejected_PlaceOrderRequest (req : option PlaceOrderRequest.t)
  : Prop :=
  match req with
  | None => True
  | Some r =>
    PlaceOrderRequest.Kind r <> OrderKindRedeem
    \/ PlaceOrderRequest.Counterpart r = None
    \/ PlaceOrderRequest.Message r = EmptyString
    \/ PlaceOrderRequest.Signature r = EmptyString
    \/ (PlaceOrderRequest.AccountID r = EmptyString
        /\ (PlaceOrderRequest.Chain r = EmptyString
            \/ PlaceOrderRequest.Currency r = EmptyString
            \/ PlaceOrderRequest.Address r = EmptyString))
  end.

(** The endpoint of a subscription, in the words of the specification: the
    profile's stream for a scope selector, the stream of all profiles
    without one. *)
Definition endpoint (c : Client) (req : option OrdersNotificationsRequest.t)
  : string :=
  match req with
  | None => wsURL c ++ "/orders"
  | Some rq =>
    if is_empty (OrdersNotificationsRequest.ProfileID rq)
    then wsURL c ++ "/orders"
    else wsURL c ++ "/profiles/" ++ OrdersNotificationsRequest.ProfileID rq
           ++ "/orders"
  end.

(** The events of the goroutine: reads, the close and sends. *)
Definition is_listener_event {Context : Type} (e : event Context) : bool :=
  match e with
  | EvRead _ | EvClose _ _ _ | EvSend _ _ => true
  | _ => false
  end.

(** ** More vocabulary: schedules, traces, servers *)

(** The ticks that the goroutine serves: those before the first select that
    finds the context cancelled. *)
Fixpoint served (sched : list selected) : list ReadResult :=
  match sched with
  | case_ticker_C rd :: rest => rd :: served rest
  | _ => []
  end.

(** The cancellation that the goroutine sees, if any. *)
Fixpoint cancellation (sched : list selected) : option error :=
  match sched with
  | [] => None
  | case_ctx_Done e :: _ => Some e
  | case_ticker_C _ :: rest => cancellation rest
  end.

(** The orders that arrive on reads, in order of arrival. *)
Definition arrivals {Context : Type} (lib : Imports Context)
  (rds : list ReadResult) : list Order.t :=
  flat_map (fun rd => match rd with
                      | ReadFrame MessageText bs =>
                        match json_Unmarshal_Order lib bs with
                        | Ok o => [o]
                        | Err _ => []
                        end
                      | _ => []
                      end) rds.

(** The reads that fail. *)
Definition failed_reads {Context : Type} (lib : Imports Context)
  (rds : list ReadResult) : list ReadResult :=
  filter (fun rd => match read_failure lib rd with
                    | Some _ => true
                    | None => false
                    end) rds.

(** The orders among delivered values. *)
Definition delivered_orders (ds : list OrderResult.t) : list Order.t :=
  flat_map (fun r => match OrderResult.Order r with
                     | Some o => [o]
                     | None => []
                     end) ds.

(** The reads and the closes of a trace. *)
Definition reads {Context : Type} (tr : list (event Context)) : nat :=
  length (filter (fun e => match e with EvRead _ => true | _ => false end) tr).

Definition closes {Context : Type} (tr : list (event Context))
  : list (Conn * Z * string) :=
  flat_map (fun e => match e with
                     | EvClose wc code reason => [(wc, code, reason)]
                     | _ => []
                     end) tr.

(** No read follows a close. *)
Fixpoint no_read_after_close {Context : Type} (tr : list (event Context))
  : bool :=
  match tr with
  | [] => true
  | EvClose _ _ _ :: rest => Nat.eqb (reads rest) 0
  | _ :: rest => no_read_after_close rest
  end.

(** A client whose server answers every request with the same response, and
    clients of [NewClient] whose options only set the tick. *)
Definition answering (c : Client) (resp : Response.t) : Prop :=
  forall r, Do (httpClient c) r = Ok resp.

Definition ticks (ds : list Duration) : list ClientOption :=
  map WithNotifyTick ds.

(** Two orders that [Validate] cannot tell apart: they agree on the kind,
    on having a counterpart, and on message, signature, account, chain,
    currency and address. *)
Definition same_for_Validate (r r' : PlaceOrderRequest.t) : Prop :=
  PlaceOrderRequest.Kind r = PlaceOrderRequest.Kind r'
  /\ (PlaceOrderRequest.Counterpart r = None
      <-> PlaceOrderRequest.Counterpart r' = None)
  /\ PlaceOrderRequest.Message r = PlaceOrderRequest.Message r'
  /\ PlaceOrderRequest.Signature r = PlaceOrderRequest.Signature r'
  /\ PlaceOrderRequest.AccountID r = PlaceOrderRequest.AccountID r'
  /\ PlaceOrderRequest.Chain r = PlaceOrderRequest.Chain r'
  /\ PlaceOrderRequest.Currency r = PlaceOrderRequest.Currency r'
  /\ PlaceOrderRequest.Address r = PlaceOrderRequest.Address r'.

(** More of the concrete environment. *)
Module Demo2.

Definition more : MoreImports Demo.Context :=
  {| json_Unmarshal_Orders := fun bs =>
       if String.eqb bs "[]" || String.eqb bs "null" then Ok []
       else Err (errors_New "invalid character looking for beginning of value");
     json_Unmarshal_ProfileBalances := fun bs =>
       if String.eqb bs "[]" || String.eqb bs "null" then Ok []
       else Err (errors_New "invalid character looking for beginning of value");
     query_Values_Encode := fun rq =>
       Ok ("accountId=" ++ GetOrdersRequest.AccountID rq
           ++ "&address=" ++ GetOrdersRequest.Address rq
           ++ "&memo=" ++ GetOrdersRequest.Memo rq
           ++ "&profile=" ++ GetOrdersRequest.ProfileID rq
           ++ "&state=" ++ GetOrdersRequest.State rq
           ++ "&txHash=" ++ GetOrdersRequest.TxHash rq);
     Config_Client := fun _ _ => Demo.server;
     Config_TokenSource := fun _ _ => Demo.tokens |}.

(** A server that answers every request with the given status, body and
    headers. *)
Definition server_answering (status : Z) (body : bytes) (h : Header)
  : http_Client :=
  {| Do := fun _ => Ok {| Response.StatusCode := status;
                          Response.Body := Ok body;
                          Response.Header := h |} |}.

Definition client_of (srv : http_Client) : Client :=
  {| baseURL := SandboxBaseURL; wsURL := SandboxWebsocketURL;
     httpClient := srv; tokenSource := Demo.tokens;
     notifyTick := defaultNotifyTick |}.

Definition auth : AuthConfig.t :=
  {| AuthConfig.ClientID := "1337";
     AuthConfig.ClientSecret := "hunter2";
     AuthConfig.TokenURL := "https://api.monerium.dev/auth/token" |}.

Definition no_filter : GetOrdersRequest.t :=
  {| GetOrdersRequest.Address := EmptyString;
     GetOrdersRequest.TxHash := EmptyString;
     GetOrdersRequest.Memo := EmptyString;
     GetOrdersRequest.State := EmptyString;
     GetOrdersRequest.AccountID := EmptyString;
     GetOrdersRequest.ProfileID := EmptyString |}.

Definition an_order : Order.t :=
  {| Order.ID := "7859502a-4b5d-11ed-88d4-4a76448b7b21";
     Order.Profile := EmptyString; Order.AccountID := EmptyString;
     Order.Address := EmptyString; Order.Kind := OrderKindIssue;
     Order.Amount := "10"; Order.Currency := CurrencyEUR;
     Order.Counterpart := Counterpart.zero; Order.Memo := EmptyString;
     Order.RejectedReason := EmptyString;
     Order.SupportingDocumentID := EmptyString;
     Order.Meta := OrderMeta.zero |}.

(** A decoder that knows one more payload. *)
Definition lib_with_order : Imports Demo.Context :=
  {| http_NewRequestWithContext_err :=
       http_NewRequestWithContext_err Demo.lib;
     json_Marshal := json_Marshal Demo.lib;
     json_Unmarshal_Order := fun bs =>
       if String.eqb bs "{id:7859502a}" then Ok an_order
       else Demo.Unmarshal_Order bs;
     json_Unmarshal_OrderPtr := Demo.Unmarshal_OrderPtr;
     json_Unmarshal_Profile := Demo.Unmarshal_Profile;
     json_Unmarshal_errorResponse := fun bs =>
       if String.eqb bs "{message:Not Found}" then
         Ok {| errorResponse.Code := 404%Z;
               errorResponse.Status := "Not Found";
               errorResponse.Message := "Not Found";
               errorResponse.Details_ID := EmptyString;
               errorResponse.Details_Method := EmptyString;
               errorResponse.Details_Resource := EmptyString;
               errorResponse.Errors := Some "{amount:required}";
               errorResponse.CorrelationID := EmptyString |}
       else Demo.Unmarshal_errorResponse bs;
     fmt_Errorf_format := errors_New;
     websocket_Dial := Demo.Dial |}.

End Demo2.

(** ** Errors that carry another error *)

Fixpoint error_eqb (a b : error) : bool :=
  match a, b with
  | errors_New m, errors_New m' => String.eqb m m'
  | fmt_Errorf_w p c, fmt_Errorf_w p' c' => String.eqb p p' && error_eqb c c'
  | _, _ => false
  end.

(** [errors.Is(e, target)]: [target] is [e] or is wrapped in it. *)
Fixpoint errors_Is (e target : error) : bool :=
  error_eqb e target
  || match e with
     | errors_New _ => false
     | fmt_Errorf_w _ c => errors_Is c target
     end.

(** The delivered values whose error carries [target]. *)
Definition carrying (target : error) (ds : list OrderResult.t)
  : list OrderResult.t :=
  filter (fun r => match OrderResult.Error r with
                   | Some e => errors_Is e target
                   | None => false
                   end) ds.

(** A delivered value that reports a failed read: its error is the error of
    the read under the prefix of the loop. *)
Definition reports_failed_read (r : OrderResult.t) : Prop :=
  exists cause,
    OrderResult.Error r = Some (fmt_Errorf_w "failed to read order: " cause).

(** An environment whose [http.NewRequestWithContext] also refuses, as
    [url.Parse] does, a URL with a percent sign that two hexadecimal digits
    do not follow. *)
Module Demo3.

Definition ishex (a : Ascii.ascii) : bool :=
  let n := Ascii.nat_of_ascii a in
  (Nat.leb 48 n && Nat.leb n 57) || (Nat.leb 65 n && Nat.leb n 70)
  || (Nat.leb 97 n && Nat.leb n 102).

Fixpoint invalid_escape (s : string) : bool :=
  match s with
  | EmptyString => false
  | String a rest =>
    if Nat.eqb (Ascii.nat_of_ascii a) 37 then
      match rest with
      | String h1 (String h2 rest') =>
        negb (ishex h1 && ishex h2) || invalid_escape rest'
      | _ => true
      end
    else invalid_escape rest
  end.

Definition lib : Imports Demo.Context :=
  {| http_NewRequestWithContext_err := fun _ _ url =>
       if Demo.stringContainsCTLByte url
       then Some (errors_New "net/url: invalid control character in URL")
       else if invalid_escape url
       then Some (errors_New "invalid URL escape")
       else None;
     json_Marshal := json_Marshal Demo.lib;
     json_Unmarshal_Order := Demo.Unmarshal_Order;
     json_Unmarshal_OrderPtr := Demo.Unmarshal_OrderPtr;
     json_Unmarshal_Profile := Demo.Unmarshal_Profile;
     json_Unmarshal_errorResponse := Demo.Unmarshal_errorResponse;
     fmt_Errorf_format := errors_New;
     websocket_Dial := Demo.Dial |}.

(** The error of a read that the cancellation of its context interrupts. *)
Definition interrupted_read : ReadResult :=
  ReadFailed (fmt_Errorf_w "failed to get reader: " Demo.context_Canceled).

End Demo3.

(** ** Lemmas on calls and traces *)

Lemma trace_bind (E A B : Type) (m : Go E A) (k : A -> Go E B) :
  trace (bind m k)
  = match value m with
    | Returned a => (trace m ++ trace (k a))%list
    | Panicked _ => trace m
    end.
Proof.
  destruct m as [tr [a | msg]]; simpl; [ | reflexivity ].
  destruct (k a) as [tr' r]; reflexivity.
Qed.

Lemma value_bind (E A B : Type) (m : Go E A) (k : A -> Go E B) :
  value (bind m k)
  = match value m with
    | Returned a => value (k a)
    | Panicked msg => Panicked msg
    end.
Proof.
  destruct m as [tr [a | msg]]; simpl; [ | reflexivity ].
  destruct (k a) as [tr' r]; reflexivity.
Qed.

Lemma Go_eta (E A : Type) (m : Go E A) : m = (trace m, value m).
Proof. destruct m; reflexivity. Qed.

Lemma is_empty_true (s : string) : is_empty s = true <-> s = EmptyString.
Proof. unfold is_empty. apply String.eqb_eq. Qed.

Lemma is_empty_false (s : string) : is_empty s = false <-> s <> EmptyString.
Proof. unfold is_empty. apply String.eqb_neq. Qed.

Section Listener.

Variable Context : Type.
Variable lib : Imports Context.
Variable l : listener Context.

Lemma deliveries_app (os : Chan) (a b : list (event Context)) :
  deliveries os (a ++ b) = (deliveries os a ++ deliveries os b)%list.
Proof. unfold deliveries. apply flat_map_app. Qed.

Lemma deliveries_send (tr : list (event Context)) (r : OrderResult.t) :
  deliveries (l_os l) (EvSend (l_os l) r :: tr)
  = r :: deliveries (l_os l) tr.
Proof.
  unfold deliveries. simpl. rewrite Nat.eqb_refl. reflexivity.
Qed.

(** What [readOrder] returns, and its single event. *)
Lemma readOrder_eq (rd : ReadResult) :
  readOrder lib (l_ctx l) (l_wc l) rd
  = ([EvRead (l_wc l)],
     Returned
       match read_failure lib rd with
       | Some e => (None, Some e)
       | None =>
         match rd with
         | ReadFrame _ bs => (fst (newOrderFrom lib bs), None)
         | ReadFailed _ => (None, None)
         end
       end).
Proof.
  destruct rd as [err | [ | ] bs]; try reflexivity.
  unfold readOrder, newOrderFrom, read_failure. simpl.
  destruct (json_Unmarshal_Order lib bs); reflexivity.
Qed.

(** The iteration of a tick whose read fails with [e]. *)
Lemma iteration_failed_read (rd : ReadResult) (e : error) :
  read_failure lib rd = Some e ->
  iteration lib l (case_ticker_C rd)
  = ([EvRead (l_wc l);
      EvSend (l_os l) (failure (fmt_Errorf_w "failed to read order: " e));
      EvSend (l_os l) unpopulated],
     Returned false).
Proof.
  intros H. unfold iteration. rewrite readOrder_eq, H. reflexivity.
Qed.

(** The iteration of a tick whose read yields a well-formed text frame. *)
Lemma iteration_good_frame (bs : bytes) (o : Order.t) :
  json_Unmarshal_Order lib bs = Ok o ->
  iteration lib l (text_frame bs)
  = ([EvRead (l_wc l); EvSend (l_os l) (success o)], Returned false).
Proof.
  intros H. unfold iteration, text_frame. rewrite readOrder_eq.
  unfold read_failure, newOrderFrom. rewrite H. reflexivity.
Qed.

(** The iteration that finds the context cancelled. *)
Lemma iteration_done (e : error) :
  iteration lib l (case_ctx_Done e)
  = ([EvClose (l_wc l) StatusNormalClosure "stopping connection";
      EvSend (l_os l) (failure e)],
     Returned true).
Proof. reflexivity. Qed.

(** A tick never makes the goroutine return. *)
Lemma iteration_tick_value (rd : ReadResult) :
  value (iteration lib l (case_ticker_C rd)) = Returned false.
Proof.
  unfold iteration. rewrite readOrder_eq.
  destruct (read_failure lib rd); destruct rd; reflexivity.
Qed.

Lemma goroutine_tick (rd : ReadResult) (rest : list selected) :
  goroutine lib l (case_ticker_C rd :: rest)
  = ((trace (iteration lib l (case_ticker_C rd))
      ++ trace (goroutine lib l rest))%list,
     value (goroutine lib l rest)).
Proof.
  cbn [goroutine].
  pose proof (iteration_tick_value rd) as Hv.
  destruct (iteration lib l (case_ticker_C rd)) as [tr v].
  simpl in Hv. subst v. unfold bind.
  destruct (goroutine lib l rest); reflexivity.
Qed.

Lemma goroutine_done (e : error) (rest : list selected) :
  goroutine lib l (case_ctx_Done e :: rest)
  = ([EvClose (l_wc l) StatusNormalClosure "stopping connection";
      EvSend (l_os l) (failure e)],
     Returned true).
Proof. reflexivity. Qed.

(** Ticks before a point of the schedule only prefix the trace. *)
Lemma goroutine_app (s1 s2 : list selected) :
  forallb is_tick s1 = true ->
  goroutine lib l (s1 ++ s2)
  = ((trace (goroutine lib l s1) ++ trace (goroutine lib l s2))%list,
     value (goroutine lib l s2)).
Proof.
  induction s1 as [ | s s1 IH]; intros Hs.
  - simpl. apply Go_eta.
  - simpl in Hs. apply andb_prop in Hs. destruct Hs as [Hs Hs1].
    destruct s as [e | rd]; [ discriminate | ].
    change ((case_ticker_C rd :: s1) ++ s2)%list
      with (case_ticker_C rd :: (s1 ++ s2))%list.
    rewrite !goroutine_tick, (IH Hs1). unfold trace at 1 4. simpl.
    rewrite app_assoc. reflexivity.
Qed.

(** Ticks alone leave the goroutine waiting in [select]. *)
Lemma goroutine_ticks_value (s : list selected) :
  forallb is_tick s = true -> value (goroutine lib l s) = Returned false.
Proof.
  intros H. rewrite <- (app_nil_r s), (goroutine_app s [] H). reflexivity.
Qed.

(** The deliveries of a run of well-formed frames. *)
Lemma deliveries_good_frames (good : list (bytes * Order.t)) :
  Forall (fun p => json_Unmarshal_Order lib (fst p) = Ok (snd p)) good ->
  deliveries (l_os l)
    (trace (goroutine lib l (map (fun p => text_frame (fst p)) good)))
  = map (fun p => success (snd p)) good.
Proof.
  induction 1 as [ | [bs o] good Hd Hgood IH]; [ reflexivity | ].
  simpl map. change (text_frame bs) with (case_ticker_C (ReadFrame MessageText bs)).
  rewrite goroutine_tick.
  change (case_ticker_C (ReadFrame MessageText bs)) with (text_frame bs).
  simpl in Hd. rewrite (iteration_good_frame _ Hd).
  unfold trace at 1 2. cbn [fst]. rewrite deliveries_app, IH.
  unfold deliveries at 1. simpl. rewrite Nat.eqb_refl. reflexivity.
Qed.

Lemma good_frames_are_ticks (good : list (bytes * Order.t)) :
  forallb is_tick (map (fun p => text_frame (fst p)) good) = true.
Proof. induction good; simpl; auto. Qed.

End Listener.

(** ** The notification listener: deliveries *)

(** No delivered value ever has both fields populated, and the values sent
    for a well-formed frame and for a cancellation are well formed. *)
Lemma goroutine_never_both_populated :
  forall (Context : Type) (lib : Imports Context) (l : listener Context)
    (sched : list selected) (r : OrderResult.t),
    In r (deliveries (l_os l) (trace (goroutine lib l sched))) ->
    OrderResult.Order r = None \/ OrderResult.Error r = None.
Proof.
  intros Context lib l sched. induction sched as [ | s sched IH]; intros r Hr.
  - destruct Hr.
  - destruct s as [e | rd].
    + rewrite goroutine_done in Hr. unfold trace in Hr. cbn [fst] in Hr.
      change (deliveries (l_os l) (EvClose ?a ?b ?c :: ?t))
        with (deliveries (l_os l) t) in Hr.
      rewrite deliveries_send in Hr.
      destruct Hr as [<- | []]. left; reflexivity.
    + rewrite goroutine_tick in Hr. unfold trace at 1 in Hr. cbn [fst] in Hr.
      rewrite deliveries_app in Hr. apply in_app_or in Hr.
      destruct Hr as [Hr | Hr]; [ | exact (IH r Hr) ].
      unfold iteration in Hr. rewrite readOrder_eq in Hr.
      destruct (read_failure lib rd) as [e | ].
      * unfold trace in Hr. simpl in Hr. rewrite Nat.eqb_refl in Hr.
        simpl in Hr. destruct Hr as [<- | [<- | []]]; left; reflexivity.
      * unfold trace in Hr. destruct rd as [err | mt bs];
          simpl in Hr; rewrite Nat.eqb_refl in Hr; simpl in Hr;
          destruct Hr as [<- | []]; right; reflexivity.
Qed.

(** C1. The claim: every value that [OrdersNotifications] delivers to the
    sink has exactly one of [Order] and [Error] populated.  The code does
    not keep it: on a tick whose read fails, the goroutine sends the error
    result and then, for want of a [continue], also sends the result of the
    success path with the nil order, so the sink receives a value with
    neither field populated. *)
Theorem C1_failed_read_delivers_unpopulated_result :
  forall (Context : Type) (lib : Imports Context) (l : listener Context)
    (err : error),
    let ds := deliveries (l_os l)
                (trace (goroutine lib l [case_ticker_C (ReadFailed err)])) in
    ds = [failure (fmt_Errorf_w "failed to read order: "
                     (fmt_Errorf_w "failed to read from websocket: " err));
          {| OrderResult.Order := None; OrderResult.Error := None |}]
    /\ forallb exactly_one_populated ds = false.
Proof.
  intros Context lib l err ds. subst ds.
  rewrite goroutine_tick.
  rewrite (@iteration_failed_read _ lib l (ReadFailed err) _ eq_refl).
  unfold trace. simpl. rewrite Nat.eqb_refl. simpl. split; reflexivity.
Qed.

(** The same run, from the call of [OrdersNotifications] on. *)
Example C1_subscription_run :
  deliveries Demo.sink
    (subscription Demo.lib Demo.client tt None Demo.sink
       [case_ticker_C (ReadFrame MessageBinary "0101")])
  = [failure (fmt_Errorf_w "failed to read order: "
                (errors_New "unsupported message type: MessageBinary"));
     unpopulated].
Proof. reflexivity. Qed.

(** C2. The claim: N well-formed frames, one malformed frame and M
    well-formed frames yield N successes, one decode-error result and M
    successes, one delivery per frame.  The code delivers two values for the
    malformed frame: the decode-error result and then a result with neither
    field populated; so the sink receives N + 2 + M values. *)
Theorem C2_malformed_frame_yields_two_deliveries :
  forall (Context : Type) (lib : Imports Context) (l : listener Context)
    (good1 good2 : list (bytes * Order.t)) (bad : bytes) (e : error),
    Forall (fun p => json_Unmarshal_Order lib (fst p) = Ok (snd p)) good1 ->
    Forall (fun p => json_Unmarshal_Order lib (fst p) = Ok (snd p)) good2 ->
    json_Unmarshal_Order lib bad = Err e ->
    let frames := (map (fun p => text_frame (fst p)) good1
                   ++ text_frame bad
                   :: map (fun p => text_frame (fst p)) good2)%list in
    let ds := deliveries (l_os l) (trace (goroutine lib l frames)) in
    ds = (map (fun p => success (snd p)) good1
          ++ [failure (fmt_Errorf_w "failed to read order: "
                         (fmt_Errorf_w "failed to build order: " e));
              unpopulated]
          ++ map (fun p => success (snd p)) good2)%list
    /\ length ds = length good1 + 2 + length good2
    /\ length ds <> length frames.
Proof.
  intros Context lib l good1 good2 bad e H1 H2 Hbad frames ds.
  assert (Hds : ds = (map (fun p => success (snd p)) good1
          ++ [failure (fmt_Errorf_w "failed to read order: "
                         (fmt_Errorf_w "failed to build order: " e));
              unpopulated]
          ++ map (fun p => success (snd p)) good2)%list).
  { subst ds frames.
    rewrite (goroutine_app lib l _ _ (good_frames_are_ticks good1)).
    unfold trace at 1. cbn [fst]. rewrite deliveries_app.
    rewrite (deliveries_good_frames lib l H1). f_equal.
    change (text_frame bad) with (case_ticker_C (ReadFrame MessageText bad)).
    rewrite goroutine_tick.
    rewrite (@iteration_failed_read _ lib l (ReadFrame MessageText bad)
               (fmt_Errorf_w "failed to build order: " e)).
    2:{ simpl. rewrite Hbad. reflexivity. }
    unfold trace at 1 2. cbn [fst].
    rewrite deliveries_app, (deliveries_good_frames lib l H2).
    f_equal. unfold deliveries. simpl. rewrite Nat.eqb_refl. reflexivity. }
  split; [ exact Hds | ].
  assert (Hlen : length ds = length good1 + 2 + length good2).
  { rewrite Hds. rewrite !length_app, !length_map. simpl. lia. }
  split; [ exact Hlen | ].
  rewrite Hlen. subst frames. rewrite length_app. simpl.
  rewrite !length_map. lia.
Qed.

Lemma C2_malformed_frame_witness :
  deliveries Demo.sink
    (trace (goroutine Demo.lib Demo.listening
              [text_frame "{}"; text_frame "{}"; text_frame "{id:";
               text_frame "null"]))
  = [success Order.zero; success Order.zero;
     failure (fmt_Errorf_w "failed to read order: "
                (fmt_Errorf_w "failed to build order: "
                   (errors_New
                      "invalid character looking for beginning of value")));
     unpopulated;
     success Order.zero].
Proof.
  refine (proj1 (@C2_malformed_frame_yields_two_deliveries Demo.Context
            Demo.lib Demo.listening
            [("{}", Order.zero); ("{}", Order.zero)] [("null", Order.zero)]
            "{id:" _ _ _ _)).
  - repeat constructor.
  - repeat constructor.
  - reflexivity.
Defined.

(** The values that ticks deliver are successes, reports of failed reads,
    and the value with neither field that follows such a report. *)
Lemma tick_deliveries :
  forall (Context : Type) (lib : Imports Context) (l : listener Context)
    (sched : list selected) (r : OrderResult.t),
    forallb is_tick sched = true ->
    In r (deliveries (l_os l) (trace (goroutine lib l sched))) ->
    OrderResult.Error r = None \/ reports_failed_read r.
Proof.
  intros Context lib l sched r. induction sched as [ | s sched IH];
    intros Hs Hr.
  - destruct Hr.
  - simpl in Hs. apply andb_prop in Hs. destruct Hs as [Hs Hsched].
    destruct s as [e | rd]; [ discriminate | ].
    rewrite goroutine_tick in Hr. unfold trace at 1 in Hr. cbn [fst] in Hr.
    rewrite deliveries_app in Hr. apply in_app_or in Hr.
    destruct Hr as [Hr | Hr]; [ | exact (IH Hsched Hr) ].
    unfold iteration in Hr. rewrite readOrder_eq in Hr.
    destruct (read_failure lib rd) as [e | ].
    + unfold trace in Hr. simpl in Hr. rewrite Nat.eqb_refl in Hr.
      simpl in Hr. destruct Hr as [<- | [<- | []]].
      * right. exists e. reflexivity.
      * left. reflexivity.
    + unfold trace in Hr. destruct rd as [err | mt bs];
        simpl in Hr; rewrite Nat.eqb_refl in Hr; simpl in Hr;
        destruct Hr as [<- | []]; left; reflexivity.
Qed.

(** C3, as the code has it.  When a select of the goroutine takes the case
    of the cancelled context, the goroutine closes the websocket with the
    normal-closure status, sends one result, with a nil order and the error
    of the context, and returns: whatever frames arrive afterwards, that
    result is the last delivery.  The results delivered before it come from
    ticks: each has no error or reports a failed read under the prefix of
    the loop, so the error of the context may already have been delivered,
    wrapped in such a report, by a read that the cancellation interrupted. *)
Theorem C3_cancellation_result_is_last :
  forall (Context : Type) (lib : Imports Context) (l : listener Context)
    (before after : list selected) (ctx_Err : error),
    forallb is_tick before = true ->
    goroutine lib l (before ++ case_ctx_Done ctx_Err :: after)
    = ((trace (goroutine lib l before)
        ++ [EvClose (l_wc l) 1000%Z "stopping connection";
            EvSend (l_os l) {| OrderResult.Order := None;
                               OrderResult.Error := Some ctx_Err |}])%list,
       Returned true)
    /\ deliveries (l_os l)
         (trace (goroutine lib l (before ++ case_ctx_Done ctx_Err :: after)))
       = (deliveries (l_os l) (trace (goroutine lib l before))
          ++ [{| OrderResult.Order := None;
                 OrderResult.Error := Some ctx_Err |}])%list
    /\ (forall r,
        In r (deliveries (l_os l) (trace (goroutine lib l before))) ->
        OrderResult.Error r = None \/ reports_failed_read r).
Proof.
  intros Context lib l before after e Hb.
  rewrite (goroutine_app lib l before _ Hb), goroutine_done.
  split; [ reflexivity | ]. split.
  - unfold trace at 1. cbn [fst]. rewrite deliveries_app. f_equal.
    unfold deliveries. simpl. rewrite Nat.eqb_refl. reflexivity.
  - intros r. apply tick_deliveries, Hb.
Qed.

Lemma C3_cancellation_result_witness :
  deliveries Demo.sink
    (trace (goroutine Demo.lib Demo.listening
              ([text_frame "{}"; text_frame "{}"]
               ++ case_ctx_Done Demo.context_Canceled
               :: [text_frame "{}"; text_frame "{}"; text_frame "{}"])))
  = [success Order.zero; success Order.zero;
     failure Demo.context_Canceled].
Proof.
  exact (proj1 (proj2 (@C3_cancellation_result_is_last Demo.Context
           Demo.lib Demo.listening [text_frame "{}"; text_frame "{}"]
           [text_frame "{}"; text_frame "{}"; text_frame "{}"]
           Demo.context_Canceled eq_refl))).
Defined.

(** C3 as it was claimed does not hold: a read that the cancellation
    interrupts fails with the error of the context, and the loop reports it
    before its select finds the context cancelled.  The sink then receives
    two results that carry the cancellation error, not one. *)
Lemma C3_cancellation_reported_twice :
  let ds :=
    deliveries Demo.sink
      (trace (goroutine Demo.lib Demo.listening
                [text_frame "{}"; text_frame "{}";
                 case_ticker_C Demo3.interrupted_read;
                 case_ctx_Done Demo.context_Canceled;
                 text_frame "{}"])) in
  ds = [success Order.zero; success Order.zero;
        failure (fmt_Errorf_w "failed to read order: "
                   (fmt_Errorf_w "failed to read from websocket: "
                      (fmt_Errorf_w "failed to get reader: "
                         Demo.context_Canceled)));
        unpopulated;
        failure Demo.context_Canceled]
  /\ length (carrying Demo.context_Canceled ds) = 2
  /\ length (carrying Demo.context_Canceled ds) <> 1.
Proof. vm_compute. repeat split. discriminate. Qed.

(** C5. A read that fails, whatever the kind of failure (network error,
    frame that is not text, payload that does not decode), does not end the
    loop: the goroutine sends a result whose error wraps the error of the
    read under the prefix [failed to read order: ], stays in the loop and
    serves the following ticks as if nothing had happened. *)
Theorem C5_failed_read_is_reported_and_loop_continues :
  forall (Context : Type) (lib : Imports Context) (l : listener Context),
    (* the three kinds of failed read, and the error each one reports *)
    (forall err,
        value (readOrder lib (l_ctx l) (l_wc l) (ReadFailed err))
        = Returned
            (None, Some (fmt_Errorf_w "failed to read from websocket: " err)))
    /\ (forall bs,
        value (readOrder lib (l_ctx l) (l_wc l) (ReadFrame MessageBinary bs))
        = Returned
            (None,
             Some (errors_New "unsupported message type: MessageBinary")))
    /\ (forall bs err,
        json_Unmarshal_Order lib bs = Err err ->
        value (readOrder lib (l_ctx l) (l_wc l) (ReadFrame MessageText bs))
        = Returned (None, Some (fmt_Errorf_w "failed to build order: " err)))
    (* any failed read: reported with the prefix, and the loop goes on *)
    /\ (forall rd o cause rest,
        value (readOrder lib (l_ctx l) (l_wc l) rd)
        = Returned (o, Some cause) ->
        let reported := fmt_Errorf_w "failed to read order: " cause in
        In {| OrderResult.Order := None; OrderResult.Error := Some reported |}
           (deliveries (l_os l)
              (trace (iteration lib l (case_ticker_C rd))))
        /\ Error_string reported
           = "failed to read order: " ++ Error_string cause
        /\ errors_Unwrap reported = Some cause
        /\ value (iteration lib l (case_ticker_C rd)) = Returned false
        /\ goroutine lib l (case_ticker_C rd :: rest)
           = ((trace (iteration lib l (case_ticker_C rd))
               ++ trace (goroutine lib l rest))%list,
              value (goroutine lib l rest))).
Proof.
  intros Context lib l. repeat split.
  - intros bs err H. rewrite readOrder_eq. simpl. rewrite H. reflexivity.
  - rewrite readOrder_eq in H. unfold value in H. cbn [snd] in H.
    assert (Hf : read_failure lib rd = Some cause).
    { destruct (read_failure lib rd) as [e | ].
      - congruence.
      - destruct rd; discriminate. }
    rewrite (iteration_failed_read lib l rd Hf).
    unfold trace. cbn [fst]. unfold deliveries. simpl.
    rewrite Nat.eqb_refl. left. reflexivity.
  - apply iteration_tick_value.
  - apply goroutine_tick.
Qed.

Lemma C5_failed_read_witness :
  In (failure (fmt_Errorf_w "failed to read order: "
                 (fmt_Errorf_w "failed to read from websocket: "
                    (errors_New "connection reset by peer"))))
     (deliveries Demo.sink
        (trace (iteration Demo.lib Demo.listening
                  (case_ticker_C
                     (ReadFailed (errors_New "connection reset by peer"))))))
  /\ deliveries Demo.sink
       (trace (goroutine Demo.lib Demo.listening
                 [case_ticker_C
                    (ReadFailed (errors_New "connection reset by peer"));
                  text_frame "{}"]))
     = [failure (fmt_Errorf_w "failed to read order: "
                   (fmt_Errorf_w "failed to read from websocket: "
                      (errors_New "connection reset by peer")));
        unpopulated; success Order.zero].
Proof.
  pose proof (proj2 (proj2 (proj2
    (@C5_failed_read_is_reported_and_loop_continues Demo.Context Demo.lib
       Demo.listening)))
    (ReadFailed (errors_New "connection reset by peer")) None
    (fmt_Errorf_w "failed to read from websocket: "
       (errors_New "connection reset by peer"))
    [text_frame "{}"] eq_refl) as H.
  split.
  - exact (proj1 H).
  - rewrite (proj2 (proj2 (proj2 (proj2 H)))). reflexivity.
Defined.

(** ** The notification listener: setup *)

(** The four ways through [OrdersNotifications]. *)
Lemma OrdersNotifications_eq :
  forall (Context : Type) (lib : Imports Context) (c : Client) (ctx : Context)
    (req : option OrdersNotificationsRequest.t) (os : Chan),
    OrdersNotifications lib c ctx req os
    = match Token (tokenSource c) tt with
      | Err err =>
        ([EvToken],
         Returned (Some (fmt_Errorf_w "failed to get auth token: " err)))
      | Ok tok =>
        let hdr := newAuthorizationHeaderFrom tok in
        match websocket_Dial lib ctx (endpoint c req) hdr with
        | Err err =>
          ([EvToken; EvDial (endpoint c req) hdr],
           Returned (Some (fmt_Errorf_w "failed to dial websocket: " err)))
        | Ok wc =>
          if (notifyTick c <=? 0)%Z then
            ([EvToken; EvDial (endpoint c req) hdr],
             Panicked "non-positive interval for NewTicker")
          else
            ([EvToken; EvDial (endpoint c req) hdr;
              EvGo {| l_ctx := ctx; l_wc := wc; l_os := os;
                      l_ticker := notifyTick c |}],
             Returned None)
        end
      end.
Proof.
  intros Context lib c ctx req os. unfold OrdersNotifications.
  destruct (Token (tokenSource c) tt) as [tok | err]; [ | reflexivity ].
  assert (Hp : (let path := wsURL c ++ "/orders" in
                match req with
                | Some rq =>
                  if negb (is_empty (OrdersNotificationsRequest.ProfileID rq))
                  then wsURL c ++ "/profiles/"
                         ++ OrdersNotificationsRequest.ProfileID rq
                         ++ "/orders"
                  else path
                | None => path
                end) = endpoint c req).
  { destruct req as [rq | ]; simpl; [ | reflexivity ].
    destruct (is_empty (OrdersNotificationsRequest.ProfileID rq));
      reflexivity. }
  cbv zeta in Hp |- *. rewrite Hp. unfold dialWebsocket.
  cbv zeta. simpl.
  destruct (websocket_Dial lib ctx (endpoint c req)
              (newAuthorizationHeaderFrom tok)) as [wc | err];
    [ | reflexivity ].
  unfold time_NewTicker.
  destruct (notifyTick c <=? 0)%Z; reflexivity.
Qed.

(** The goroutine asks for no token, dials nothing and starts no
    goroutine. *)
Lemma goroutine_events :
  forall (Context : Type) (lib : Imports Context) (l : listener Context)
    (sched : list selected),
    forallb is_listener_event (trace (goroutine lib l sched)) = true.
Proof.
  intros Context lib l sched. induction sched as [ | s sched IH].
  - reflexivity.
  - destruct s as [e | rd].
    + reflexivity.
    + rewrite goroutine_tick. unfold trace at 1. cbn [fst].
      rewrite forallb_app, IH, andb_true_r.
      unfold iteration. rewrite readOrder_eq.
      destruct (read_failure lib rd); destruct rd; reflexivity.
Qed.

Lemma listener_events_no_token :
  forall (Context : Type) (tr : list (event Context)),
    forallb is_listener_event tr = true ->
    token_requests tr = 0 /\ dials tr = [] /\ spawned tr = [].
Proof.
  intros Context tr. unfold token_requests, dials, spawned.
  induction tr as [ | e tr IH]; intros H.
  - repeat split.
  - simpl in H. apply andb_prop in H. destruct H as [He Htr].
    destruct (IH Htr) as (H1 & H2 & H3).
    destruct e; try discriminate; simpl; auto.
Qed.

(** C4. A subscription whose token cannot be acquired, or whose websocket
    cannot be dialed, fails synchronously: [OrdersNotifications] returns the
    error (under its prefix), starts no goroutine, and the sink receives
    nothing, whatever happens afterwards. *)
Theorem C4_setup_failure_is_synchronous :
  forall (Context : Type) (lib : Imports Context) (c : Client) (ctx : Context)
    (req : option OrdersNotificationsRequest.t) (os : Chan)
    (sched : list selected),
    let call := OrdersNotifications lib c ctx req os in
    (forall err,
        Token (tokenSource c) tt = Err err ->
        value call
        = Returned (Some (fmt_Errorf_w "failed to get auth token: " err))
        /\ dials (trace call) = []
        /\ spawned (trace call) = []
        /\ deliveries os (subscription lib c ctx req os sched) = [])
    /\ (forall url hdr err,
        In (url, hdr) (dials (trace call)) ->
        websocket_Dial lib ctx url hdr = Err err ->
        value call
        = Returned (Some (fmt_Errorf_w "failed to dial websocket: " err))
        /\ spawned (trace call) = []
        /\ deliveries os (subscription lib c ctx req os sched) = []).
Proof.
  intros Context lib c ctx req os sched call. subst call.
  unfold subscription. rewrite OrdersNotifications_eq. split.
  - intros err H. rewrite H. repeat split.
  - intros url hdr err Hin Hd.
    destruct (Token (tokenSource c) tt) as [tok | terr].
    + cbv zeta in Hin |- *.
      destruct (websocket_Dial lib ctx (endpoint c req)
                  (newAuthorizationHeaderFrom tok)) as [wc | derr] eqn:Hdial.
      * destruct (notifyTick c <=? 0)%Z;
          (destruct Hin as [Hin | []]; inversion Hin; subst; congruence).
      * destruct Hin as [Hin | []]. inversion Hin; subst.
        assert (derr = err) by congruence. subst. repeat split.
    + destruct Hin.
Qed.

Lemma C4_setup_failure_witness :
  (value (OrdersNotifications Demo.lib Demo.client_without_token tt None
            Demo.sink)
   = Returned (Some (fmt_Errorf_w "failed to get auth token: "
                       (errors_New "oauth2: cannot fetch token")))
   /\ deliveries Demo.sink
        (subscription Demo.lib Demo.client_without_token tt None Demo.sink
           [text_frame "{}"; case_ctx_Done Demo.context_Canceled]) = [])
  /\ (value (OrdersNotifications Demo.lib Demo.client_bad_wsURL tt None
               Demo.sink)
      = Returned (Some (fmt_Errorf_w "failed to dial websocket: "
                          (errors_New "unexpected url scheme")))
      /\ deliveries Demo.sink
           (subscription Demo.lib Demo.client_bad_wsURL tt None Demo.sink
              [text_frame "{}"; case_ctx_Done Demo.context_Canceled]) = []).
Proof.
  split.
  - pose proof (proj1 (@C4_setup_failure_is_synchronous Demo.Context Demo.lib
        Demo.client_without_token tt None Demo.sink
        [text_frame "{}"; case_ctx_Done Demo.context_Canceled])
      (errors_New "oauth2: cannot fetch token") eq_refl) as H.
    exact (conj (proj1 H) (proj2 (proj2 (proj2 H)))).
  - pose proof (proj2 (@C4_setup_failure_is_synchronous Demo.Context Demo.lib
        Demo.client_bad_wsURL tt None Demo.sink
        [text_frame "{}"; case_ctx_Done Demo.context_Canceled])
      "ftp://api.monerium.dev/orders"
      [("Authorization", ["Bearer s3cr3t"])]
      (errors_New "unexpected url scheme")
      (or_introl eq_refl) eq_refl) as H.
    exact (conj (proj1 H) (proj2 (proj2 H))).
Defined.

(** C6. A request with a non-empty [ProfileID] makes [OrdersNotifications]
    dial [wsURL + "/profiles/" + ProfileID + "/orders"], and one with an
    empty [ProfileID] makes it dial [wsURL + "/orders"]: no other URL is ever
    dialed, and with a token in hand that URL is dialed, once, with the
    token as bearer. *)
Theorem C6_dialed_endpoint :
  forall (Context : Type) (lib : Imports Context) (c : Client) (ctx : Context)
    (rq : OrdersNotificationsRequest.t) (os : Chan),
    let pid := OrdersNotificationsRequest.ProfileID rq in
    let tr := trace (OrdersNotifications lib c ctx (Some rq) os) in
    (pid <> EmptyString ->
     (forall url hdr, In (url, hdr) (dials tr) ->
                      url = wsURL c ++ "/profiles/" ++ pid ++ "/orders")
     /\ (forall tok, Token (tokenSource c) tt = Ok tok ->
           dials tr
           = [(wsURL c ++ "/profiles/" ++ pid ++ "/orders",
               [("Authorization", ["Bearer " ++ Token.AccessToken tok])])]))
    /\ (pid = EmptyString ->
     (forall url hdr, In (url, hdr) (dials tr) -> url = wsURL c ++ "/orders")
     /\ (forall tok, Token (tokenSource c) tt = Ok tok ->
           dials tr
           = [(wsURL c ++ "/orders",
               [("Authorization", ["Bearer " ++ Token.AccessToken tok])])])).
Proof.
  intros Context lib c ctx rq os pid tr.
  assert (Hdials : dials tr
    = match Token (tokenSource c) tt with
      | Err _ => []
      | Ok tok => [(endpoint c (Some rq), newAuthorizationHeaderFrom tok)]
      end).
  { subst tr. rewrite OrdersNotifications_eq.
    destruct (Token (tokenSource c) tt) as [tok | err]; [ | reflexivity ].
    cbv zeta.
    destruct (websocket_Dial lib ctx (endpoint c (Some rq))
                (newAuthorizationHeaderFrom tok)); [ | reflexivity ].
    destruct (notifyTick c <=? 0)%Z; reflexivity. }
  rewrite Hdials. unfold endpoint. fold pid. split; intros Hpid.
  - apply is_empty_false in Hpid. rewrite Hpid. split.
    + intros url hdr Hin. destruct (Token (tokenSource c) tt); [ | destruct Hin ].
      destruct Hin as [Hin | []]. congruence.
    + intros tok Htok. rewrite Htok. reflexivity.
  - apply is_empty_true in Hpid. rewrite Hpid. split.
    + intros url hdr Hin. destruct (Token (tokenSource c) tt); [ | destruct Hin ].
      destruct Hin as [Hin | []]. congruence.
    + intros tok Htok. rewrite Htok. reflexivity.
Qed.

Lemma C6_dialed_endpoint_witness :
  dials (trace (OrdersNotifications Demo.lib Demo.client tt
                  (Some {| OrdersNotificationsRequest.ProfileID :=
                             "4f079ef8-6d26-11eb-9bc8-acde48001122" |})
                  Demo.sink))
  = [("wss://api.monerium.dev/profiles/4f079ef8-6d26-11eb-9bc8-acde48001122/orders",
      [("Authorization", ["Bearer s3cr3t"])])]
  /\ dials (trace (OrdersNotifications Demo.lib Demo.client tt
                     (Some {| OrdersNotificationsRequest.ProfileID :=
                                EmptyString |})
                     Demo.sink))
     = [("wss://api.monerium.dev/orders",
         [("Authorization", ["Bearer s3cr3t"])])].
Proof.
  split.
  - refine (proj2 (proj1 (@C6_dialed_endpoint Demo.Context Demo.lib
              Demo.client tt
              {| OrdersNotificationsRequest.ProfileID :=
                   "4f079ef8-6d26-11eb-9bc8-acde48001122" |} Demo.sink) _)
              {| Token.AccessToken := "s3cr3t" |} eq_refl).
    discriminate.
  - exact (proj2 (proj2 (@C6_dialed_endpoint Demo.Context Demo.lib
              Demo.client tt
              {| OrdersNotificationsRequest.ProfileID := EmptyString |}
              Demo.sink) eq_refl)
              {| Token.AccessToken := "s3cr3t" |} eq_refl).
Defined.

(** C7. A subscription asks the token source for a token exactly once, as
    its first action and so before it dials; the goroutine never asks. *)
Theorem C7_token_requested_once_before_dial :
  forall (Context : Type) (lib : Imports Context) (c : Client) (ctx : Context)
    (req : option OrdersNotificationsRequest.t) (os : Chan)
    (sched : list selected),
    (exists rest,
        subscription lib c ctx req os sched = EvToken :: rest
        /\ token_requests rest = 0)
    /\ token_requests (subscription lib c ctx req os sched) = 1
    /\ token_requests (trace (OrdersNotifications lib c ctx req os)) = 1
    /\ (forall l, token_requests (trace (goroutine lib l sched)) = 0).
Proof.
  intros Context lib c ctx req os sched.
  assert (Hg : forall l, token_requests (trace (goroutine lib l sched)) = 0).
  { intros l. apply listener_events_no_token, goroutine_events. }
  assert (Hs : exists rest,
             subscription lib c ctx req os sched = EvToken :: rest
             /\ token_requests rest = 0
             /\ token_requests (trace (OrdersNotifications lib c ctx req os))
                = 1).
  { unfold subscription. rewrite OrdersNotifications_eq.
    destruct (Token (tokenSource c) tt) as [tok | err].
    - cbv zeta.
      destruct (websocket_Dial lib ctx (endpoint c req)
                  (newAuthorizationHeaderFrom tok)) as [wc | derr].
      + destruct (notifyTick c <=? 0)%Z.
        * eexists. repeat split.
        * eexists. split; [ reflexivity | ]. split; [ | reflexivity ].
          unfold trace at 1. simpl. rewrite app_nil_r. apply Hg.
      + eexists. repeat split.
    - eexists. repeat split. }
  destruct Hs as (rest & Heq & Hrest & Hcall).
  split; [ exists rest; auto | ]. split; [ | split; [ exact Hcall | exact Hg ] ].
  rewrite Heq. unfold token_requests in *. simpl. rewrite Hrest. reflexivity.
Qed.

(** C8. A nil request is accepted and served as a request with an empty
    [ProfileID]: the two calls are the same, only [wsURL + "/orders"] is
    dialed, and when the token, the dial and the ticker are fine the call
    returns nil with the listener started on that connection. *)
Theorem C8_nil_request_is_all_profiles :
  forall (Context : Type) (lib : Imports Context) (c : Client) (ctx : Context)
    (os : Chan),
    OrdersNotifications lib c ctx None os
    = OrdersNotifications lib c ctx
        (Some {| OrdersNotificationsRequest.ProfileID := EmptyString |}) os
    /\ (forall url hdr,
        In (url, hdr) (dials (trace (OrdersNotifications lib c ctx None os))) ->
        url = wsURL c ++ "/orders")
    /\ (forall tok wc,
        Token (tokenSource c) tt = Ok tok ->
        websocket_Dial lib ctx (wsURL c ++ "/orders")
          [("Authorization", ["Bearer " ++ Token.AccessToken tok])] = Ok wc ->
        (0 < notifyTick c)%Z ->
        OrdersNotifications lib c ctx None os
        = ([EvToken;
            EvDial (wsURL c ++ "/orders")
              [("Authorization", ["Bearer " ++ Token.AccessToken tok])];
            EvGo {| l_ctx := ctx; l_wc := wc; l_os := os;
                    l_ticker := notifyTick c |}],
           Returned None)).
Proof.
  intros Context lib c ctx os. split; [ reflexivity | ].
  rewrite OrdersNotifications_eq. split.
  - intros url hdr Hin.
    destruct (Token (tokenSource c) tt) as [tok | err]; [ | destruct Hin ].
    cbv zeta in Hin.
    destruct (websocket_Dial lib ctx (endpoint c None)
                (newAuthorizationHeaderFrom tok));
      [ destruct (notifyTick c <=? 0)%Z | ];
      (destruct Hin as [Hin | []]; inversion Hin; reflexivity).
  - intros tok wc Htok Hdial Htick. rewrite Htok. cbv zeta.
    unfold endpoint, newAuthorizationHeaderFrom. rewrite Hdial.
    destruct (Z.leb_spec (notifyTick c) 0); [ lia | reflexivity ].
Qed.

Lemma C8_nil_request_witness :
  OrdersNotifications Demo.lib Demo.client tt None Demo.sink
  = ([EvToken;
      EvDial "wss://api.monerium.dev/orders"
        [("Authorization", ["Bearer s3cr3t"])];
      EvGo Demo.listening],
     Returned None).
Proof.
  exact (proj2 (proj2 (@C8_nil_request_is_all_profiles Demo.Context Demo.lib
           Demo.client tt Demo.sink))
           {| Token.AccessToken := "s3cr3t" |} 1 eq_refl eq_refl eq_refl).
Defined.

(** ** HTTP calls *)

Section Requests.

Variable Context : Type.
Variable lib : Imports Context.
Variable c : Client.
Variable ctx : Context.

Lemma newErrorFrom_trace (callName : string) (body : bytes) (h : Header) :
  trace (newErrorFrom lib callName body h) = [].
Proof.
  unfold newErrorFrom.
  destruct (json_Unmarshal_errorResponse lib body) as [errResp | err];
    [ | reflexivity ].
  destruct (Header_lookup h "X-Correlation-Id") as [[ | c0 corrID] | ];
    reflexivity.
Qed.

(** A round trip sends its request, and nothing else. *)
Lemma roundTrip_trace (path : string) (r : Request.t) (accepted : Z -> bool) :
  trace (roundTrip lib c path r accepted) = [EvHTTP r].
Proof.
  unfold roundTrip. rewrite trace_bind. simpl.
  destruct (Do (httpClient c) r) as [resp | err]; [ | reflexivity ].
  destruct (Response.Body resp) as [bs | err]; [ | reflexivity ].
  destruct (accepted (Response.StatusCode resp)); [ reflexivity | ].
  simpl. rewrite trace_bind, newErrorFrom_trace.
  destruct (value (newErrorFrom lib path bs (Response.Header resp)));
    reflexivity.
Qed.

(** [get] sends one GET to [baseURL + path], unless the request cannot be
    built. *)
Lemma get_trace (path : string) :
  trace (get lib c ctx path)
  = match http_NewRequestWithContext_err lib ctx MethodGet (baseURL c ++ path)
    with
    | Some _ => []
    | None => [EvHTTP {| Request.Method := "GET";
                         Request.URL := baseURL c ++ path;
                         Request.Body := None |}]
    end.
Proof.
  unfold get.
  destruct (http_NewRequestWithContext_err lib ctx MethodGet
              (baseURL c ++ path)); [ reflexivity | ].
  apply roundTrip_trace.
Qed.

(** [post] sends one POST of the marshalled request to [baseURL + path],
    unless the request cannot be marshalled or built. *)
Lemma post_trace (A : Type) (path : string) (req : A) :
  trace (post lib c ctx path req)
  = match json_Marshal lib req,
          http_NewRequestWithContext_err lib ctx MethodPost
            (baseURL c ++ path) with
    | Ok rs, None => [EvHTTP {| Request.Method := "POST";
                                Request.URL := baseURL c ++ path;
                                Request.Body := Some rs |}]
    | _, _ => []
    end.
Proof.
  unfold post.
  destruct (json_Marshal lib req) as [rs | err]; [ | reflexivity ].
  destruct (http_NewRequestWithContext_err lib ctx MethodPost
              (baseURL c ++ path)); [ reflexivity | ].
  apply roundTrip_trace.
Qed.

End Requests.

(** [Validate] refuses exactly the requests that the specification lists. *)
Lemma PlaceOrderRequest_Validate_rejects (req : option PlaceOrderRequest.t) :
  rejected_PlaceOrderRequest req <-> PlaceOrderRequest.Validate req <> None.
Proof.
  destruct req as [r | ]; simpl; [ | split; [ discriminate | trivial ] ].
  destruct (String.eqb_spec (PlaceOrderRequest.Kind r) OrderKindRedeem)
    as [Hk | Hk]; simpl; [ | split; [ discriminate | tauto ] ].
  destruct (PlaceOrderRequest.Counterpart r) as [cp | ];
    [ | split; [ discriminate | tauto ] ].
  unfold is_empty.
  destruct (String.eqb_spec (PlaceOrderRequest.Message r) EmptyString)
    as [Hm | Hm]; simpl; [ split; [ discriminate | tauto ] | ].
  destruct (String.eqb_spec (PlaceOrderRequest.Signature r) EmptyString)
    as [Hs | Hs]; simpl; [ split; [ discriminate | tauto ] | ].
  destruct (String.eqb_spec (PlaceOrderRequest.AccountID r) EmptyString)
    as [Ha | Ha]; simpl.
  - destruct (String.eqb_spec (PlaceOrderRequest.Chain r) EmptyString)
      as [Hc | Hc]; simpl; [ split; [ discriminate | tauto ] | ].
    destruct (String.eqb_spec (PlaceOrderRequest.Currency r) EmptyString)
      as [Hy | Hy]; simpl; [ split; [ discriminate | tauto ] | ].
    destruct (String.eqb_spec (PlaceOrderRequest.Address r) EmptyString)
      as [Hd | Hd]; simpl; [ split; [ discriminate | tauto ] | ].
    split; [ | congruence ].
    intros [H | [H | [H | [H | [_ [H | [H | H]]]]]]]; congruence.
  - split; [ | congruence ].
    intros [H | [H | [H | [H | [H _]]]]]; congruence.
Qed.

(** C9. [PlaceOrder] returns the error of [Validate] and sends no HTTP
    request for every request that the validation refuses (nil, kind other
    than redeem, nil counterpart, empty message or signature, or no account
    and one of chain, currency, address empty); for every request that
    passes it makes one call of [post] on the path [/orders], and nothing
    else: never more than one request, always a POST to
    [baseURL + "/orders"], and exactly one as soon as the request can be
    marshalled and built. *)
Theorem C9_PlaceOrder_validation_gates_the_request :
  forall (Context : Type) (lib : Imports Context) (c : Client) (ctx : Context)
    (req : option PlaceOrderRequest.t),
    (rejected_PlaceOrderRequest req ->
     exists err,
       PlaceOrderRequest.Validate req = Some err
       /\ PlaceOrder lib c ctx req = ([], Returned (None, Some err))
       /\ http_requests (trace (PlaceOrder lib c ctx req)) = [])
    /\ (~ rejected_PlaceOrderRequest req ->
        PlaceOrderRequest.Validate req = None
        /\ (exists k,
             PlaceOrder lib c ctx req = bind (post lib c ctx "/orders" req) k
             /\ forall r, trace (k r) = [])
        /\ (forall r, In r (http_requests (trace (PlaceOrder lib c ctx req))) ->
                      Request.Method r = "POST"
                      /\ Request.URL r = baseURL c ++ "/orders")
        /\ length (http_requests (trace (PlaceOrder lib c ctx req))) <= 1
        /\ (forall rs,
             json_Marshal lib req = Ok rs ->
             http_NewRequestWithContext_err lib ctx "POST"
               (baseURL c ++ "/orders") = None ->
             http_requests (trace (PlaceOrder lib c ctx req))
             = [{| Request.Method := "POST";
                   Request.URL := baseURL c ++ "/orders";
                   Request.Body := Some rs |}])).
Proof.
  intros Context lib c ctx req. split.
  - intros Hrej. apply PlaceOrderRequest_Validate_rejects in Hrej.
    unfold PlaceOrder.
    destruct (PlaceOrderRequest.Validate req) as [err | ]; [ | congruence ].
    exists err. repeat split.
  - intros Hok.
    assert (Hv : PlaceOrderRequest.Validate req = None).
    { destruct (PlaceOrderRequest.Validate req) as [err | ] eqn:E;
        [ | reflexivity ].
      exfalso. apply Hok, PlaceOrderRequest_Validate_rejects. congruence. }
    split; [ exact Hv | ].
    assert (Hk : exists k,
               PlaceOrder lib c ctx req = bind (post lib c ctx "/orders" req) k
               /\ forall r, trace (k r) = []).
    { unfold PlaceOrder. rewrite Hv. eexists. split; [ reflexivity | ].
      intros [bs [err | ]]; [ reflexivity | ].
      simpl. destruct (json_Unmarshal_Order lib bs); reflexivity. }
    split; [ exact Hk | ].
    destruct Hk as (k & Heq & Hk).
    assert (Htr : trace (PlaceOrder lib c ctx req)
                  = trace (post lib c ctx "/orders" req)).
    { rewrite Heq, trace_bind.
      destruct (value (post lib c ctx "/orders" req)); [ | reflexivity ].
      rewrite Hk. apply app_nil_r. }
    rewrite Htr, post_trace.
    destruct (json_Marshal lib req) as [rs | merr].
    + destruct (http_NewRequestWithContext_err lib ctx MethodPost
                  (baseURL c ++ "/orders")) as [nerr | ] eqn:Hn.
      * split; [ intros r [] | ]. split; [ simpl; lia | ].
        intros rs' _ Hn'. unfold MethodPost in Hn. congruence.
      * split; [ intros r [<- | []]; split; reflexivity | ].
        split; [ simpl; lia | ]. intros rs' Hrs _. inversion Hrs. reflexivity.
    + split; [ intros r [] | ]. split; [ simpl; lia | ].
      intros rs' Hrs. discriminate.
Qed.

Lemma C9_PlaceOrder_witness :
  PlaceOrder Demo.lib Demo.client tt None
  = ([], Returned (None, Some (errors_New "PlaceOrderRequest is required")))
  /\ http_requests (trace (PlaceOrder Demo.lib Demo.client tt
                             (Some Demo.redeem)))
     = [{| Request.Method := "POST";
           Request.URL := "https://api.monerium.dev/orders";
           Request.Body := Some "{}" |}].
Proof.
  split.
  - destruct (proj1 (@C9_PlaceOrder_validation_gates_the_request Demo.Context
                Demo.lib Demo.client tt None) I) as (err & Hv & Hp & _).
    inversion Hv. subst err. exact Hp.
  - refine (proj2 (proj2 (proj2 (proj2
      (proj2 (@C9_PlaceOrder_validation_gates_the_request Demo.Context
                Demo.lib Demo.client tt (Some Demo.redeem)) _))))
      "{}" eq_refl eq_refl).
    simpl.
    intros [H | [H | [H | [H | [H _]]]]];
      try discriminate H; apply H; reflexivity.
Defined.

(** C10, as the code has it.  [GetOrder] reads [req.OrderID] without a nil
    check: on a nil request it panics on the nil pointer where [GetProfile]
    and [PlaceOrder] return the error of their validation; on a request that
    is not nil it validates nothing, not even an empty [OrderID], and makes
    one call of [get] on the path ["/orders/" + OrderID].  That call sends
    its GET to [baseURL + "/orders/" + OrderID] when the request can be
    built from that URL; when it cannot, [GetOrder] returns the error of the
    construction and sends nothing. *)
Theorem C10_GetOrder_has_no_nil_check :
  forall (Context : Type) (lib : Imports Context) (c : Client) (ctx : Context),
    GetOrder lib c ctx None
    = ([], Panicked "invalid memory address or nil pointer dereference")
    /\ GetProfile lib c ctx None
       = ([], Returned (None,
                        Some (errors_New "GetProfileRequest is required")))
    /\ PlaceOrder lib c ctx None
       = ([], Returned (None,
                        Some (errors_New "PlaceOrderRequest is required")))
    /\ (forall rq : GetOrderRequest.t,
        let path := "/orders/" ++ GetOrderRequest.OrderID rq in
        (exists k,
            GetOrder lib c ctx (Some rq) = bind (get lib c ctx path) k
            /\ forall r, trace (k r) = [])
        /\ (forall r,
            In r (http_requests (trace (GetOrder lib c ctx (Some rq)))) ->
            r = {| Request.Method := "GET";
                   Request.URL := baseURL c ++ path;
                   Request.Body := None |})
        /\ (http_NewRequestWithContext_err lib ctx "GET" (baseURL c ++ path)
            = None ->
            http_requests (trace (GetOrder lib c ctx (Some rq)))
            = [{| Request.Method := "GET";
                  Request.URL := baseURL c ++ path;
                  Request.Body := None |}])
        /\ (forall err,
            http_NewRequestWithContext_err lib ctx "GET" (baseURL c ++ path)
            = Some err ->
            GetOrder lib c ctx (Some rq)
            = ([], Returned (None, Some err)))).
Proof.
  intros Context lib c ctx.
  split; [ reflexivity | ]. split; [ reflexivity | ].
  split; [ reflexivity | ].
  intros rq path.
  assert (Hk : exists k,
             GetOrder lib c ctx (Some rq) = bind (get lib c ctx path) k
             /\ forall r, trace (k r) = []).
  { unfold GetOrder. fold path. eexists. split; [ reflexivity | ].
    intros [bs [err | ]]; [ reflexivity | ].
    simpl. destruct (json_Unmarshal_OrderPtr lib bs); reflexivity. }
  split; [ exact Hk | ].
  assert (Hlast : forall err,
             http_NewRequestWithContext_err lib ctx "GET" (baseURL c ++ path)
             = Some err ->
             GetOrder lib c ctx (Some rq) = ([], Returned (None, Some err))).
  { intros err Herr. unfold GetOrder, get, MethodGet. fold path.
    rewrite Herr. reflexivity. }
  destruct Hk as (k & Heq & Hk).
  assert (Htr : trace (GetOrder lib c ctx (Some rq))
                = trace (get lib c ctx path)).
  { rewrite Heq, trace_bind.
    destruct (value (get lib c ctx path)); [ | reflexivity ].
    rewrite Hk. apply app_nil_r. }
  rewrite Htr, get_trace. unfold MethodGet.
  destruct (http_NewRequestWithContext_err lib ctx "GET" (baseURL c ++ path)).
  - split; [ intros r [] | ]. split; [ discriminate | exact Hlast ].
  - split; [ intros r [<- | []]; reflexivity | ].
    split; [ reflexivity | exact Hlast ].
Qed.

Lemma C10_GetOrder_witness :
  http_requests
    (trace (GetOrder Demo3.lib Demo.client tt
              (Some {| GetOrderRequest.OrderID := EmptyString |})))
  = [{| Request.Method := "GET";
        Request.URL := "https://api.monerium.dev/orders/";
        Request.Body := None |}]
  /\ GetOrder Demo3.lib Demo.client tt
       (Some {| GetOrderRequest.OrderID := "%zz" |})
     = ([], Returned (None, Some (errors_New "invalid URL escape"))).
Proof.
  pose proof (proj2 (proj2 (proj2
    (@C10_GetOrder_has_no_nil_check Demo.Context Demo3.lib Demo.client tt))))
    as H.
  split.
  - exact (proj1 (proj2 (proj2
             (H {| GetOrderRequest.OrderID := EmptyString |}))) eq_refl).
  - exact (proj2 (proj2 (proj2
             (H {| GetOrderRequest.OrderID := "%zz" |})))
             (errors_New "invalid URL escape") eq_refl).
Defined.

(** C10 as it was claimed does not hold for every request that is not nil:
    with the [OrderID] [%zz] the URL does not parse, and [GetOrder] returns
    that error without performing any GET. *)
Lemma C10_GetOrder_sends_nothing_for_a_bad_OrderID :
  let call := GetOrder Demo3.lib Demo.client tt
                (Some {| GetOrderRequest.OrderID := "%zz" |}) in
  http_requests (trace call) = []
  /\ value call = Returned (None, Some (errors_New "invalid URL escape"))
  /\ ~ In {| Request.Method := "GET";
             Request.URL := "https://api.monerium.dev/orders/%zz";
             Request.Body := None |}
          (http_requests (trace call)).
Proof. vm_compute. repeat split. intros []. Qed.

(** ** The notification listener along any schedule *)

Section Listener_runs.

Variable Context : Type.
Variable lib : Imports Context.
Variable l : listener Context.

(** The two shapes of the iteration of a tick. *)
Lemma iteration_tick_cases (rd : ReadResult) :
  (exists e,
      read_failure lib rd = Some e
      /\ iteration lib l (case_ticker_C rd)
         = ([EvRead (l_wc l);
             EvSend (l_os l)
               (failure (fmt_Errorf_w "failed to read order: " e));
             EvSend (l_os l) unpopulated],
            Returned false))
  \/ (exists bs o,
      rd = ReadFrame MessageText bs
      /\ json_Unmarshal_Order lib bs = Ok o
      /\ read_failure lib rd = None
      /\ iteration lib l (case_ticker_C rd)
         = ([EvRead (l_wc l); EvSend (l_os l) (success o)], Returned false)).
Proof.
  destruct (read_failure lib rd) as [e | ] eqn:Hf.
  - left. exists e. split; [ reflexivity | ].
    apply iteration_failed_read, Hf.
  - right. destruct rd as [err | [ | ] bs]; try discriminate Hf.
    simpl in Hf.
    destruct (json_Unmarshal_Order lib bs) as [o | err] eqn:Hd;
      [ | discriminate Hf ].
    exists bs, o. repeat split; try assumption.
    apply (iteration_good_frame lib l bs Hd).
Qed.

(** The trace of a schedule that starts with a tick. *)
Lemma goroutine_tick_trace (rd : ReadResult) (rest : list selected) :
  trace (goroutine lib l (case_ticker_C rd :: rest))
  = (trace (iteration lib l (case_ticker_C rd))
     ++ trace (goroutine lib l rest))%list.
Proof. rewrite goroutine_tick. reflexivity. Qed.

(** X1. Orders are delivered in the order of their arrival, none is lost and
    none is delivered twice, whatever failed reads come in between and up to
    the cancellation. *)
Theorem delivered_orders_are_the_arrivals (sched : list selected) :
  delivered_orders (deliveries (l_os l) (trace (goroutine lib l sched)))
  = arrivals lib (served sched).
Proof.
  induction sched as [ | [e | rd] sched IH].
  - reflexivity.
  - rewrite goroutine_done. unfold trace, deliveries. simpl.
    rewrite Nat.eqb_refl. reflexivity.
  - rewrite goroutine_tick_trace, deliveries_app.
    unfold delivered_orders in *. rewrite flat_map_app, IH.
    change (served (case_ticker_C rd :: sched)) with (rd :: served sched).
    unfold arrivals at 2. cbn [flat_map]. fold (arrivals lib (served sched)).
    f_equal.
    destruct (iteration_tick_cases rd)
      as [(e & Hf & ->) | (bs & o & -> & Hd & _ & ->)].
    + unfold trace, deliveries. simpl. rewrite Nat.eqb_refl. simpl.
      destruct rd as [err | [ | ] bs]; try reflexivity.
      simpl in Hf. destruct (json_Unmarshal_Order lib bs);
        [ discriminate | reflexivity ].
    + cbv iota beta. rewrite Hd. unfold trace, deliveries. simpl.
      rewrite Nat.eqb_refl. reflexivity.
Qed.

(** X2. The sink receives one value per served tick, one more per failed read,
    and one for the cancellation. *)
Theorem deliveries_count (sched : list selected) :
  length (deliveries (l_os l) (trace (goroutine lib l sched)))
  = length (served sched) + length (failed_reads lib (served sched))
    + match cancellation sched with Some _ => 1 | None => 0 end.
Proof.
  induction sched as [ | [e | rd] sched IH].
  - reflexivity.
  - rewrite goroutine_done. unfold trace, deliveries. simpl.
    rewrite Nat.eqb_refl. reflexivity.
  - rewrite goroutine_tick_trace, deliveries_app, length_app, IH.
    change (served (case_ticker_C rd :: sched)) with (rd :: served sched).
    change (cancellation (case_ticker_C rd :: sched))
      with (cancellation sched).
    unfold failed_reads. cbn [filter length].
    destruct (iteration_tick_cases rd)
      as [(e & Hf & ->) | (bs & o & -> & Hd & Hf & ->)];
      rewrite Hf; unfold trace, deliveries; simpl; rewrite Nat.eqb_refl;
      simpl; lia.
Qed.

(** X3. The goroutine returns exactly when a select finds the context
    cancelled: no failed read, however many, makes it stop. *)
Theorem goroutine_returns_iff_cancelled (sched : list selected) :
  value (goroutine lib l sched)
  = Returned match cancellation sched with
             | Some _ => true
             | None => false
             end.
Proof.
  induction sched as [ | [e | rd] sched IH]; try reflexivity.
  rewrite goroutine_tick. exact IH.
Qed.

(** X4. The connection is read once per served tick, is closed only on
    cancellation, once, with the normal-closure status, and is never read
    after it was closed. *)
Theorem connection_discipline (sched : list selected) :
  let tr := trace (goroutine lib l sched) in
  reads tr = length (served sched)
  /\ closes tr = match cancellation sched with
                 | Some _ => [(l_wc l, 1000%Z, "stopping connection")]
                 | None => []
                 end
  /\ no_read_after_close tr = true.
Proof.
  induction sched as [ | [e | rd] sched IH].
  - repeat split.
  - repeat split.
  - cbv zeta in *. destruct IH as (Hr & Hc & Hn).
    rewrite goroutine_tick_trace.
    change (served (case_ticker_C rd :: sched)) with (rd :: served sched).
    change (cancellation (case_ticker_C rd :: sched))
      with (cancellation sched).
    destruct (iteration_tick_cases rd)
      as [(e & _ & ->) | (bs & o & _ & _ & _ & ->)];
      unfold trace at 1 3 5; cbn [fst app];
      (split; [ unfold reads in *; simpl; rewrite Hr; reflexivity | ]);
      (split; [ unfold closes in *; simpl; exact Hc | exact Hn ]).
Qed.


End Listener_runs.


(** ** HTTP calls: statuses, errors, panics *)

Lemma string_app_assoc (a b c : string) : (a ++ b) ++ c = a ++ b ++ c.
Proof. induction a as [ | x a IH]; simpl; [ | rewrite IH ]; reflexivity. Qed.

Lemma string_app_nil_r (a : string) : a ++ EmptyString = a.
Proof. induction a as [ | x a IH]; simpl; [ | rewrite IH ]; reflexivity. Qed.

(** A continuation without events adds nothing to a trace. *)
Lemma trace_bind_silent (E A B : Type) (m : Go E A) (k : A -> Go E B) :
  (forall a, trace (k a) = []) -> trace (bind m k) = trace m.
Proof.
  intros Hk. rewrite trace_bind. destruct (value m); [ | reflexivity ].
  rewrite Hk. apply app_nil_r.
Qed.

Section Http_calls.

Variable Context : Type.
Variable lib : Imports Context.
Variable c : Client.
Variable ctx : Context.

(** What [newErrorFrom] returns. *)
Lemma newErrorFrom_value (callName : string) (body : bytes) (h : Header) :
  value (newErrorFrom lib callName body h)
  = match json_Unmarshal_errorResponse lib body with
    | Err err => Returned err
    | Ok errResp =>
      let details := match errorResponse.Errors errResp with
                     | Some raw => ". Details: " ++ raw
                     | None => EmptyString
                     end in
      match Header_lookup h "X-Correlation-Id" with
      | Some [] => Panicked "index out of range [0] with length 0"
      | Some (c0 :: _) =>
        Returned (fmt_Errorf_format lib
          (callName ++ " call failed due to: "
             ++ errorResponse.Message errResp
             ++ ". CorrelationID: " ++ c0 ++ details))
      | None =>
        Returned (fmt_Errorf_format lib
          (callName ++ " call failed due to: "
             ++ errorResponse.Message errResp ++ details))
      end
    end.
Proof.
  unfold newErrorFrom.
  destruct (json_Unmarshal_errorResponse lib body) as [errResp | err];
    [ | reflexivity ].
  destruct (Header_lookup h "X-Correlation-Id") as [[ | c0 corrID] | ];
    [ reflexivity | | ];
    destruct (errorResponse.Errors errResp) as [raw | ];
    cbv beta iota zeta delta [bind ret value snd panic];
    rewrite ?string_app_assoc, ?string_app_nil_r; reflexivity.
Qed.

(** What a round trip returns. *)
Lemma roundTrip_value (path : string) (r : Request.t) (accepted : Z -> bool) :
  value (roundTrip lib c path r accepted)
  = match Do (httpClient c) r with
    | Err err => Returned (EmptyString, Some err)
    | Ok resp =>
      match Response.Body resp with
      | Err err => Returned (EmptyString, Some err)
      | Ok bs =>
        if accepted (Response.StatusCode resp) then Returned (bs, None)
        else match value (newErrorFrom lib path bs (Response.Header resp))
             with
             | Returned e => Returned (EmptyString, Some e)
             | Panicked msg => Panicked msg
             end
      end
    end.
Proof.
  unfold roundTrip. rewrite value_bind. cbn [value emit snd].
  destruct (Do (httpClient c) r) as [resp | err]; [ | reflexivity ].
  destruct (Response.Body resp) as [bs | err]; [ | reflexivity ].
  destruct (accepted (Response.StatusCode resp)); [ reflexivity | ].
  cbn [negb]. rewrite value_bind.
  destruct (value (newErrorFrom lib path bs (Response.Header resp)));
    reflexivity.
Qed.

Lemma get_value (path : string) :
  http_NewRequestWithContext_err lib ctx "GET" (baseURL c ++ path) = None ->
  value (get lib c ctx path)
  = value (roundTrip lib c path
             {| Request.Method := "GET"; Request.URL := baseURL c ++ path;
                Request.Body := None |}
             (fun s => Z.eqb s StatusOK)).
Proof. intros H. unfold get, MethodGet. rewrite H. reflexivity. Qed.

Lemma post_value (A : Type) (path : string) (req : A) (rs : bytes) :
  json_Marshal lib req = Ok rs ->
  http_NewRequestWithContext_err lib ctx "POST" (baseURL c ++ path) = None ->
  value (post lib c ctx path req)
  = value (roundTrip lib c path
             {| Request.Method := "POST"; Request.URL := baseURL c ++ path;
                Request.Body := Some rs |}
             (fun s => Z.eqb s StatusOK || Z.eqb s StatusAccepted)).
Proof. intros Hm H. unfold post, MethodPost. rewrite Hm, H. reflexivity. Qed.

(** X6. [get] takes only status 200 for a success; [post] takes 200 and 202.
    On these the body is returned as it was read; on any other status the
    call fails. *)
Theorem statuses_accepted_by_get_and_post :
  forall (resp : Response.t) (bs : bytes) (path : string),
    answering c resp ->
    Response.Body resp = Ok bs ->
    (http_NewRequestWithContext_err lib ctx "GET" (baseURL c ++ path) = None ->
     (value (get lib c ctx path) = Returned (bs, None)
      <-> Response.StatusCode resp = 200%Z))
    /\ (forall (A : Type) (req : A) (rs : bytes),
        json_Marshal lib req = Ok rs ->
        http_NewRequestWithContext_err lib ctx "POST" (baseURL c ++ path)
        = None ->
        (value (post lib c ctx path req) = Returned (bs, None)
         <-> (Response.StatusCode resp = 200%Z
              \/ Response.StatusCode resp = 202%Z))).
Proof.
  intros resp bs path Hans Hbody. split.
  - intros Hreq. rewrite (get_value path Hreq), roundTrip_value, Hans, Hbody.
    unfold StatusOK.
    destruct (Z.eqb_spec (Response.StatusCode resp) 200) as [E | E].
    + tauto.
    + split; [ | contradiction ].
      destruct (value (newErrorFrom lib path bs (Response.Header resp)));
        discriminate.
  - intros A req rs Hm Hreq.
    rewrite (post_value path req Hm Hreq), roundTrip_value, Hans, Hbody.
    unfold StatusOK, StatusAccepted.
    destruct (Z.eqb_spec (Response.StatusCode resp) 200) as [E | E];
      [ simpl; tauto | ].
    destruct (Z.eqb_spec (Response.StatusCode resp) 202) as [E' | E'];
      [ simpl; tauto | ].
    simpl. split; [ | tauto ].
    destruct (value (newErrorFrom lib path bs (Response.Header resp)));
      discriminate.
Qed.

(** X7. The error of a refused call: the path of the call (not its URL), the
    message of the error response, then the first value of the correlation
    header and the validation details when the response has them. *)
Theorem message_of_a_refused_call :
  forall (resp : Response.t) (bs : bytes) (path : string)
    (errResp : errorResponse.t),
    answering c resp ->
    Response.Body resp = Ok bs ->
    Response.StatusCode resp <> 200%Z ->
    http_NewRequestWithContext_err lib ctx "GET" (baseURL c ++ path) = None ->
    json_Unmarshal_errorResponse lib bs = Ok errResp ->
    (forall c0 others raw,
        Header_lookup (Response.Header resp) "X-Correlation-Id"
        = Some (c0 :: others) ->
        errorResponse.Errors errResp = Some raw ->
        value (get lib c ctx path)
        = Returned
            (EmptyString,
             Some (fmt_Errorf_format lib
                     (path ++ " call failed due to: "
                        ++ errorResponse.Message errResp
                        ++ ". CorrelationID: " ++ c0
                        ++ ". Details: " ++ raw))))
    /\ (Header_lookup (Response.Header resp) "X-Correlation-Id" = None ->
        errorResponse.Errors errResp = None ->
        value (get lib c ctx path)
        = Returned
            (EmptyString,
             Some (fmt_Errorf_format lib
                     (path ++ " call failed due to: "
                        ++ errorResponse.Message errResp)))).
Proof.
  intros resp bs path errResp Hans Hbody Hst Hreq Hdec.
  apply Z.eqb_neq in Hst.
  assert (Hv : value (get lib c ctx path)
               = match value (newErrorFrom lib path bs (Response.Header resp))
                 with
                 | Returned e => Returned (EmptyString, Some e)
                 | Panicked msg => Panicked msg
                 end).
  { rewrite (get_value path Hreq), roundTrip_value, (Hans _), Hbody.
    unfold StatusOK. rewrite Hst. reflexivity. }
  rewrite Hv, newErrorFrom_value, Hdec. cbv zeta. split.
  - intros c0 others raw Hh He. rewrite Hh, He. reflexivity.
  - intros Hh He. rewrite Hh, He, string_app_nil_r. reflexivity.
Qed.

(** X8. When the body of a refused call is not an error response (it does not
    decode), the caller gets the error of the decoder: the status and the
    body of the response are lost. *)
Theorem undecodable_error_body :
  forall (resp : Response.t) (bs : bytes) (path : string) (err : error),
    answering c resp ->
    Response.Body resp = Ok bs ->
    Response.StatusCode resp <> 200%Z ->
    http_NewRequestWithContext_err lib ctx "GET" (baseURL c ++ path) = None ->
    json_Unmarshal_errorResponse lib bs = Err err ->
    get lib c ctx path
    = ([EvHTTP {| Request.Method := "GET"; Request.URL := baseURL c ++ path;
                  Request.Body := None |}],
       Returned (EmptyString, Some err)).
Proof.
  intros resp bs path err Hans Hbody Hst Hreq Hdec.
  rewrite (Go_eta (get lib c ctx path)), get_trace.
  rewrite (get_value path Hreq), roundTrip_value, Hans, Hbody.
  unfold MethodGet. rewrite Hreq.
  apply Z.eqb_neq in Hst. unfold StatusOK. rewrite Hst.
  rewrite newErrorFrom_value, Hdec. reflexivity.
Qed.

(** X9. [get] and [post] panic in one situation only: the call was refused, the
    body is an error response, and the response has the correlation header
    with no value. *)
Theorem panic_only_on_empty_correlation_header :
  forall (path : string) (msg : string),
    (value (get lib c ctx path) = Panicked msg
     \/ exists (A : Type) (req : A),
         value (post lib c ctx path req) = Panicked msg) ->
    exists (r : Request.t) (resp : Response.t) (bs : bytes)
           (errResp : errorResponse.t),
      Do (httpClient c) r = Ok resp
      /\ Response.Body resp = Ok bs
      /\ Response.StatusCode resp <> 200%Z
      /\ json_Unmarshal_errorResponse lib bs = Ok errResp
      /\ Header_lookup (Response.Header resp) "X-Correlation-Id" = Some [].
Proof.
  assert (Hrt : forall path r accepted msg,
             (forall s, s = 200%Z -> accepted s = true) ->
             value (roundTrip lib c path r accepted) = Panicked msg ->
             exists resp bs errResp,
               Do (httpClient c) r = Ok resp
               /\ Response.Body resp = Ok bs
               /\ Response.StatusCode resp <> 200%Z
               /\ json_Unmarshal_errorResponse lib bs = Ok errResp
               /\ Header_lookup (Response.Header resp) "X-Correlation-Id"
                  = Some []).
  { intros path r accepted msg Hacc H. rewrite roundTrip_value in H.
    destruct (Do (httpClient c) r) as [resp | err] eqn:Hdo;
      [ | discriminate ].
    destruct (Response.Body resp) as [bs | err] eqn:Hb; [ | discriminate ].
    destruct (accepted (Response.StatusCode resp)) eqn:Ha; [ discriminate | ].
    rewrite newErrorFrom_value in H.
    destruct (json_Unmarshal_errorResponse lib bs) as [errResp | err] eqn:Hd;
      [ | discriminate ].
    cbv zeta in H.
    destruct (Header_lookup (Response.Header resp) "X-Correlation-Id")
      as [[ | c0 others] | ] eqn:Hh; try discriminate.
    exists resp, bs, errResp. repeat split; try assumption.
    intros E. rewrite (Hacc _ E) in Ha. discriminate. }
  intros path msg [H | (A & req & H)].
  - unfold get in H.
    destruct (http_NewRequestWithContext_err lib ctx MethodGet
                (baseURL c ++ path)); [ discriminate | ].
    apply Hrt in H.
    + destruct H as (resp & bs & errResp & H). eauto.
    + intros s ->. reflexivity.
  - unfold post in H.
    destruct (json_Marshal lib req) as [rs | err]; [ | discriminate ].
    destruct (http_NewRequestWithContext_err lib ctx MethodPost
                (baseURL c ++ path)); [ discriminate | ].
    apply Hrt in H.
    + destruct H as (resp & bs & errResp & H). eauto.
    + intros s ->. reflexivity.
Qed.

End Http_calls.

Lemma statuses_accepted_witness :
  value (post Demo.lib (Demo2.client_of (Demo2.server_answering 202 "{}" []))
           tt "/orders" (Some Demo.redeem))
  = Returned ("{}", None)
  /\ value (get Demo.lib (Demo2.client_of (Demo2.server_answering 202 "{}" []))
              tt "/orders")
     <> Returned ("{}", None).
Proof.
  pose proof (@statuses_accepted_by_get_and_post Demo.Context Demo.lib
    (Demo2.client_of (Demo2.server_answering 202 "{}" [])) tt
    {| Response.StatusCode := 202; Response.Body := Ok "{}";
       Response.Header := [] |} "{}" "/orders"
    (fun _ => eq_refl) eq_refl) as [Hget Hpost].
  split.
  - apply (Hpost _ (Some Demo.redeem) "{}" eq_refl eq_refl).
    right. reflexivity.
  - intros H. apply (Hget eq_refl) in H. discriminate H.
Defined.

Lemma message_of_a_refused_call_witness :
  value (get Demo2.lib_with_order
           (Demo2.client_of
              (Demo2.server_answering 404 "{message:Not Found}"
                 [("X-Correlation-Id", ["c-1"; "c-2"])]))
           tt "/orders/1")
  = Returned
      (EmptyString,
       Some (errors_New
         "/orders/1 call failed due to: Not Found. CorrelationID: c-1. Details: {amount:required}")).
Proof.
  exact (proj1 (@message_of_a_refused_call Demo.Context Demo2.lib_with_order
    (Demo2.client_of
       (Demo2.server_answering 404 "{message:Not Found}"
          [("X-Correlation-Id", ["c-1"; "c-2"])]))
    tt _ "{message:Not Found}" "/orders/1" _
    (fun _ => eq_refl) eq_refl ltac:(discriminate) eq_refl eq_refl)
    "c-1" ["c-2"] "{amount:required}" eq_refl eq_refl).
Defined.

Lemma undecodable_error_body_witness :
  get Demo.lib
    (Demo2.client_of (Demo2.server_answering 502 "<html>Bad Gateway</html>" []))
    tt "/tokens"
  = ([EvHTTP {| Request.Method := "GET";
                Request.URL := "https://api.monerium.dev/tokens";
                Request.Body := None |}],
     Returned
       (EmptyString,
        Some (errors_New "invalid character looking for beginning of value"))).
Proof.
  exact (@undecodable_error_body Demo.Context Demo.lib
    (Demo2.client_of (Demo2.server_answering 502 "<html>Bad Gateway</html>" []))
    tt _ "<html>Bad Gateway</html>" "/tokens" _
    (fun _ => eq_refl) eq_refl ltac:(discriminate) eq_refl eq_refl).
Defined.

Lemma panic_on_empty_correlation_header_witness :
  value (get Demo.lib
           (Demo2.client_of
              (Demo2.server_answering 500 "{}" [("X-Correlation-Id", [])]))
           tt "/tokens")
  = Panicked "index out of range [0] with length 0"
  /\ exists (r : Request.t) (resp : Response.t) (bs : bytes)
            (errResp : errorResponse.t),
      Do (Demo2.server_answering 500 "{}" [("X-Correlation-Id", [])]) r
      = Ok resp
      /\ Response.Body resp = Ok bs
      /\ Response.StatusCode resp <> 200%Z
      /\ json_Unmarshal_errorResponse Demo.lib bs = Ok errResp
      /\ Header_lookup (Response.Header resp) "X-Correlation-Id" = Some [].
Proof.
  split; [ reflexivity | ].
  exact (@panic_only_on_empty_correlation_header Demo.Context Demo.lib
    (Demo2.client_of
       (Demo2.server_answering 500 "{}" [("X-Correlation-Id", [])]))
    tt "/tokens" "index out of range [0] with length 0"
    (or_introl eq_refl)).
Defined.

(** ** Requests for a profile, results and errors *)

Section Calls.

Variable Context : Type.
Variable lib : Imports Context.
Variable more : MoreImports Context.
Variable c : Client.
Variable ctx : Context.

(** X10. An empty [ProfileID] is refused by [GetProfile] and by
    [AddAddressToProfile] before any request is made, but it is accepted by
    [GetBalancesForProfile], which checks for a nil request only and then
    asks for the path [/profiles//balances]. *)
Theorem empty_ProfileID_is_not_refused_everywhere :
  GetProfile lib c ctx
    (Some {| GetProfileRequest.ProfileID := EmptyString |})
  = ([], Returned (None, Some (errors_New "empty profileID")))
  /\ (forall address message signature accounts,
      AddAddressToProfile lib c ctx
        (Some {| AddAddressToProfileRequest.ProfileID := EmptyString;
                 AddAddressToProfileRequest.Address := address;
                 AddAddressToProfileRequest.Message := message;
                 AddAddressToProfileRequest.Signature := signature;
                 AddAddressToProfileRequest.Accounts := accounts |})
      = ([], Returned (None, Some (errors_New "empty profileID"))))
  /\ GetBalancesForProfile lib more c ctx None
     = ([], Returned ([], Some (errors_New
                                  "GetBalancesForProfileRequest is required")))
  /\ (http_NewRequestWithContext_err lib ctx "GET"
        (baseURL c ++ "/profiles//balances") = None ->
      http_requests
        (trace (GetBalancesForProfile lib more c ctx
                  (Some {| GetBalancesForProfileRequest.ProfileID :=
                             EmptyString |})))
      = [{| Request.Method := "GET";
            Request.URL := baseURL c ++ "/profiles//balances";
            Request.Body := None |}]).
Proof.
  split; [ reflexivity | ]. split; [ reflexivity | ].
  split; [ reflexivity | ].
  intros Hreq. unfold GetBalancesForProfile.
  cbn [GetBalancesForProfileRequest.Validate
         GetBalancesForProfileRequest.ProfileID].
  change ("/profiles/" ++ EmptyString ++ "/balances")
    with "/profiles//balances".
  rewrite trace_bind_silent, get_trace; unfold MethodGet.
  - rewrite Hreq. reflexivity.
  - intros [bs [err | ]]; [ reflexivity | ].
    destruct (json_Unmarshal_ProfileBalances more bs); reflexivity.
Qed.

(** X11. With a [ProfileID] the three calls go to the paths of that profile:
    [GetProfile] gets [/profiles/ID], [AddAddressToProfile] posts the
    request to [/profiles/ID/addresses] without checking its address,
    message or signature, and [GetBalancesForProfile] gets
    [/profiles/ID/balances]; each makes that one request and no other. *)
Theorem requests_for_a_profile :
  forall (id : string),
    id <> EmptyString ->
    (http_NewRequestWithContext_err lib ctx "GET"
       (baseURL c ++ "/profiles/" ++ id) = None ->
     http_requests
       (trace (GetProfile lib c ctx
                 (Some {| GetProfileRequest.ProfileID := id |})))
     = [{| Request.Method := "GET";
           Request.URL := baseURL c ++ "/profiles/" ++ id;
           Request.Body := None |}])
    /\ (forall (rq : AddAddressToProfileRequest.t) (rs : bytes),
        AddAddressToProfileRequest.ProfileID rq = id ->
        json_Marshal lib (Some rq) = Ok rs ->
        http_NewRequestWithContext_err lib ctx "POST"
          (baseURL c ++ "/profiles/" ++ id ++ "/addresses") = None ->
        http_requests (trace (AddAddressToProfile lib c ctx (Some rq)))
        = [{| Request.Method := "POST";
              Request.URL := baseURL c ++ "/profiles/" ++ id ++ "/addresses";
              Request.Body := Some rs |}])
    /\ (http_NewRequestWithContext_err lib ctx "GET"
          (baseURL c ++ "/profiles/" ++ id ++ "/balances") = None ->
        http_requests
          (trace (GetBalancesForProfile lib more c ctx
                    (Some {| GetBalancesForProfileRequest.ProfileID := id |})))
        = [{| Request.Method := "GET";
              Request.URL := baseURL c ++ "/profiles/" ++ id ++ "/balances";
              Request.Body := None |}]).
Proof.
  intros id Hid. apply is_empty_false in Hid. split; [ | split ].
  - intros Hreq. unfold GetProfile.
    cbn [GetProfileRequest.Validate GetProfileRequest.ProfileID].
    rewrite Hid.
    rewrite trace_bind_silent, get_trace; unfold MethodGet.
    + rewrite Hreq. reflexivity.
    + intros [bs [err | ]]; [ reflexivity | ].
      destruct (json_Unmarshal_Profile lib bs); reflexivity.
  - intros rq rs Hrq Hm Hreq. unfold AddAddressToProfile.
    cbn [AddAddressToProfileRequest.Validate]. rewrite Hrq, Hid.
    rewrite trace_bind_silent, post_trace; unfold MethodPost.
    + rewrite Hm, Hreq. reflexivity.
    + intros [bs [err | ]]; [ reflexivity | ].
      destruct (json_Unmarshal_Profile lib bs); reflexivity.
  - intros Hreq. unfold GetBalancesForProfile.
    cbn [GetBalancesForProfileRequest.Validate
           GetBalancesForProfileRequest.ProfileID].
    rewrite trace_bind_silent, get_trace; unfold MethodGet.
    + rewrite Hreq. reflexivity.
    + intros [bs [err | ]]; [ reflexivity | ].
      destruct (json_Unmarshal_ProfileBalances more bs); reflexivity.
Qed.

End Calls.

Lemma empty_ProfileID_witness :
  http_requests
    (trace (GetBalancesForProfile Demo.lib Demo2.more Demo.client tt
              (Some {| GetBalancesForProfileRequest.ProfileID :=
                         EmptyString |})))
  = [{| Request.Method := "GET";
        Request.URL := "https://api.monerium.dev/profiles//balances";
        Request.Body := None |}].
Proof.
  exact (proj2 (proj2 (proj2
    (@empty_ProfileID_is_not_refused_everywhere Demo.Context Demo.lib
       Demo2.more Demo.client tt))) eq_refl).
Defined.

Lemma requests_for_a_profile_witness :
  http_requests
    (trace (GetProfile Demo.lib Demo.client tt
              (Some {| GetProfileRequest.ProfileID := "4f079ef8" |})))
  = [{| Request.Method := "GET";
        Request.URL := "https://api.monerium.dev/profiles/4f079ef8";
        Request.Body := None |}]
  /\ http_requests
       (trace (AddAddressToProfile Demo.lib Demo.client tt
                 (Some {| AddAddressToProfileRequest.ProfileID := "4f079ef8";
                          AddAddressToProfileRequest.Address := EmptyString;
                          AddAddressToProfileRequest.Message := EmptyString;
                          AddAddressToProfileRequest.Signature := EmptyString;
                          AddAddressToProfileRequest.Accounts := [] |})))
     = [{| Request.Method := "POST";
           Request.URL := "https://api.monerium.dev/profiles/4f079ef8/addresses";
           Request.Body := Some "{}" |}].
Proof.
  pose proof (@requests_for_a_profile Demo.Context Demo.lib Demo2.more
                Demo.client tt "4f079ef8" ltac:(discriminate))
    as (Hget & Hpost & _).
  split.
  - exact (Hget eq_refl).
  - exact (Hpost {| AddAddressToProfileRequest.ProfileID := "4f079ef8";
                    AddAddressToProfileRequest.Address := EmptyString;
                    AddAddressToProfileRequest.Message := EmptyString;
                    AddAddressToProfileRequest.Signature := EmptyString;
                    AddAddressToProfileRequest.Accounts := [] |}
                 "{}" eq_refl eq_refl eq_refl).
Defined.

Section Results.

Variable Context : Type.
Variable lib : Imports Context.
Variable more : MoreImports Context.
Variable c : Client.
Variable ctx : Context.

(** X12. [PlaceOrder], [GetProfile] and [AddAddressToProfile] return a value or
    an error, never both and never neither. *)
Theorem value_or_error :
  (forall req o e,
      value (PlaceOrder lib c ctx req) = Returned (o, e) ->
      (o = None <-> e <> None))
  /\ (forall req p e,
      value (GetProfile lib c ctx req) = Returned (p, e) ->
      (p = None <-> e <> None))
  /\ (forall req p e,
      value (AddAddressToProfile lib c ctx req) = Returned (p, e) ->
      (p = None <-> e <> None)).
Proof.
  assert (Hdone : forall (A : Type) (o : option A) (e : option error) a b,
             @Returned (option A * option error) (a, b) = Returned (o, e) ->
             (a = None <-> b <> None) -> (o = None <-> e <> None)).
  { intros A o e a b H. inversion H. subst. trivial. }
  split; [ | split ].
  - intros req o e. unfold PlaceOrder.
    destruct (PlaceOrderRequest.Validate req) as [err | ].
    + intros H. apply (Hdone _ _ _ _ _ H). split; congruence.
    + rewrite value_bind.
      destruct (value (post lib c ctx "/orders" req))
        as [[bs [err | ]] | msg]; try discriminate.
      * intros H. apply (Hdone _ _ _ _ _ H). split; congruence.
      * destruct (json_Unmarshal_Order lib bs); intros H;
          apply (Hdone _ _ _ _ _ H); split; congruence.
  - intros req p e. unfold GetProfile.
    destruct (GetProfileRequest.Validate req) as [err | ].
    + intros H. apply (Hdone _ _ _ _ _ H). split; congruence.
    + destruct req as [rq | ]; [ | discriminate ].
      rewrite value_bind.
      destruct (value (get lib c ctx
                         ("/profiles/" ++ GetProfileRequest.ProfileID rq)))
        as [[bs [err | ]] | msg]; try discriminate.
      * intros H. apply (Hdone _ _ _ _ _ H). split; congruence.
      * destruct (json_Unmarshal_Profile lib bs); intros H;
          apply (Hdone _ _ _ _ _ H); split; congruence.
  - intros req p e. unfold AddAddressToProfile.
    destruct (AddAddressToProfileRequest.Validate req) as [err | ].
    + intros H. apply (Hdone _ _ _ _ _ H). split; congruence.
    + destruct req as [rq | ]; [ | discriminate ].
      rewrite value_bind.
      destruct (value (post lib c ctx
                         ("/profiles/"
                            ++ AddAddressToProfileRequest.ProfileID rq
                            ++ "/addresses") (Some rq)))
        as [[bs [err | ]] | msg]; try discriminate.
      * intros H. apply (Hdone _ _ _ _ _ H). split; congruence.
      * destruct (json_Unmarshal_Profile lib bs); intros H;
          apply (Hdone _ _ _ _ _ H); split; congruence.
Qed.

(** X13. [GetOrder] never returns both an order and an error, but it returns
    neither, a nil order and a nil error, exactly when the call succeeded
    and the body decodes to a nil pointer (as the JSON [null] does). *)
Theorem GetOrder_may_return_neither :
  forall (rq : GetOrderRequest.t),
    (forall o e,
        value (GetOrder lib c ctx (Some rq)) = Returned (o, e) ->
        o = None \/ e = None)
    /\ (value (GetOrder lib c ctx (Some rq)) = Returned (None, None)
        <-> exists bs,
          value (get lib c ctx ("/orders/" ++ GetOrderRequest.OrderID rq))
          = Returned (bs, None)
          /\ json_Unmarshal_OrderPtr lib bs = Ok None).
Proof.
  intros rq. unfold GetOrder. rewrite value_bind.
  destruct (value (get lib c ctx ("/orders/" ++ GetOrderRequest.OrderID rq)))
    as [[bs [err | ]] | msg].
  - split.
    + intros o e H. inversion H. left. reflexivity.
    + split; [ discriminate | ]. intros (bs' & H & _). discriminate.
  - destruct (json_Unmarshal_OrderPtr lib bs) as [o' | err] eqn:Hd.
    + split.
      * intros o e H. inversion H. right. reflexivity.
      * split.
        -- intros H. inversion H. subst. exists bs. split; trivial.
        -- intros (bs' & H & Hd'). inversion H. subst.
           rewrite Hd in Hd'. inversion Hd'. reflexivity.
    + split.
      * intros o e H. inversion H. left. reflexivity.
      * split; [ discriminate | ].
        intros (bs' & H & Hd'). inversion H. subst. congruence.
  - split.
    + intros o e H. discriminate.
    + split; [ discriminate | ]. intros (bs' & H & _). discriminate.
Qed.

(** X14. [GetOrders] without a request gets [/orders], bare; with a request it
    gets [/orders?] followed by the encoded query, whatever the fields hold;
    when the request cannot be encoded it returns that error and sends
    nothing. *)
Theorem GetOrders_query :
  (forall r,
      In r (http_requests (trace (GetOrders lib more c ctx None))) ->
      r = {| Request.Method := "GET"; Request.URL := baseURL c ++ "/orders";
             Request.Body := None |})
  /\ (http_NewRequestWithContext_err lib ctx "GET" (baseURL c ++ "/orders")
      = None ->
      http_requests (trace (GetOrders lib more c ctx None))
      = [{| Request.Method := "GET"; Request.URL := baseURL c ++ "/orders";
            Request.Body := None |}])
  /\ (forall rq v,
      query_Values_Encode more rq = Ok v ->
      (forall r,
          In r (http_requests (trace (GetOrders lib more c ctx (Some rq)))) ->
          r = {| Request.Method := "GET";
                 Request.URL := baseURL c ++ "/orders?" ++ v;
                 Request.Body := None |})
      /\ (http_NewRequestWithContext_err lib ctx "GET"
            (baseURL c ++ "/orders?" ++ v) = None ->
          http_requests (trace (GetOrders lib more c ctx (Some rq)))
          = [{| Request.Method := "GET";
                Request.URL := baseURL c ++ "/orders?" ++ v;
                Request.Body := None |}]))
  /\ (forall rq err,
      query_Values_Encode more rq = Err err ->
      GetOrders lib more c ctx (Some rq) = ([], Returned ([], Some err))).
Proof.
  assert (Hfetch : forall path,
    trace (r <- get lib c ctx path ;;
           match r with
           | (_, Some err) => ret ([], Some err)
           | (bs, None) =>
             match json_Unmarshal_Orders more bs with
             | Err err => ret ([], Some err)
             | Ok os => ret (os, None)
             end
           end)
    = match http_NewRequestWithContext_err lib ctx "GET" (baseURL c ++ path)
      with
      | Some _ => []
      | None => [EvHTTP {| Request.Method := "GET";
                           Request.URL := baseURL c ++ path;
                           Request.Body := None |}]
      end).
  { intros path. rewrite trace_bind_silent; [ apply get_trace | ].
    intros [bs [err | ]]; [ reflexivity | ].
    destruct (json_Unmarshal_Orders more bs); reflexivity. }
  split; [ | split; [ | split ] ].
  - unfold GetOrders. rewrite Hfetch.
    destruct (http_NewRequestWithContext_err lib ctx "GET"
                (baseURL c ++ "/orders"));
      [ intros r [] | intros r [<- | []]; reflexivity ].
  - intros Hreq. unfold GetOrders. rewrite Hfetch, Hreq. reflexivity.
  - intros rq v Hv. unfold GetOrders. rewrite Hv, Hfetch. split.
    + destruct (http_NewRequestWithContext_err lib ctx "GET"
                  (baseURL c ++ "/orders?" ++ v));
        [ intros r [] | intros r [<- | []]; reflexivity ].
    + intros Hreq. rewrite Hreq. reflexivity.
  - intros rq err Hv. unfold GetOrders. rewrite Hv. reflexivity.
Qed.

End Results.

Lemma value_or_error_witness :
  Some Order.zero = None <-> @None error <> None.
Proof.
  exact (proj1 (@value_or_error Demo.Context Demo.lib Demo.client tt)
           (Some Demo.redeem) (Some Order.zero) None eq_refl).
Defined.

Lemma GetOrder_may_return_neither_witness :
  value (GetOrder Demo.lib
           (Demo2.client_of (Demo2.server_answering 200 "null" [])) tt
           (Some {| GetOrderRequest.OrderID := "7859502a" |}))
  = Returned (None, None).
Proof.
  apply (proj2 (@GetOrder_may_return_neither Demo.Context Demo.lib
                  (Demo2.client_of (Demo2.server_answering 200 "null" [])) tt
                  {| GetOrderRequest.OrderID := "7859502a" |})).
  exists "null". split; reflexivity.
Defined.

Lemma GetOrders_query_witness :
  http_requests
    (trace (GetOrders Demo.lib Demo2.more Demo.client tt
              (Some Demo2.no_filter)))
  = [{| Request.Method := "GET";
        Request.URL :=
          "https://api.monerium.dev/orders?accountId=&address=&memo=&profile=&state=&txHash=";
        Request.Body := None |}]
  /\ http_requests (trace (GetOrders Demo.lib Demo2.more Demo.client tt None))
     = [{| Request.Method := "GET";
           Request.URL := "https://api.monerium.dev/orders";
           Request.Body := None |}].
Proof.
  pose proof (@GetOrders_query Demo.Context Demo.lib Demo2.more Demo.client tt)
    as (_ & Hnil & Hq & _).
  split.
  - exact (proj2 (Hq Demo2.no_filter
                    "accountId=&address=&memo=&profile=&state=&txHash="
                    eq_refl) eq_refl).
  - exact (Hnil eq_refl).
Defined.

(** ** Building a client *)

Lemma last_cons_default (A : Type) (x : A) (xs : list A) (a b : A) :
  last (x :: xs) a = last (x :: xs) b.
Proof.
  revert x. induction xs as [ | y xs IH]; intros x; [ reflexivity | ].
  change (last (x :: y :: xs) a) with (last (y :: xs) a).
  change (last (x :: y :: xs) b) with (last (y :: xs) b). apply IH.
Qed.

(** Options that set the tick, applied to a client. *)
Lemma fold_ticks (ds : list Duration) (c0 : Client) :
  fold_left (fun cli (o : ClientOption) => o cli) (ticks ds) c0
  = {| baseURL := baseURL c0; wsURL := wsURL c0;
       httpClient := httpClient c0; tokenSource := tokenSource c0;
       notifyTick := last ds (notifyTick c0) |}.
Proof.
  revert c0. induction ds as [ | d ds IH]; intros c0.
  - destruct c0; reflexivity.
  - cbn [ticks map fold_left]. fold (ticks ds). rewrite IH.
    unfold WithNotifyTick at 1 2 3 4 5. cbn [baseURL wsURL httpClient tokenSource notifyTick].
    f_equal. destruct ds as [ | d' ds']; [ reflexivity | ].
    change (last (d :: d' :: ds') (notifyTick c0))
      with (last (d' :: ds') (notifyTick c0)).
    apply last_cons_default.
Qed.

(** X15. [NewClient] keeps the two URLs it is given, takes its HTTP client and
    its token source from the credentials, and ticks every 500 ms unless
    options set the tick, in which case the last one holds. *)
Theorem NewClient_tick_options :
  forall (Context : Type) (more : MoreImports Context) (ctx : Context)
    (base ws : string) (auth : AuthConfig.t) (ds : list Duration),
    let conf := {| Config.ClientID := AuthConfig.ClientID auth;
                   Config.ClientSecret := AuthConfig.ClientSecret auth;
                   Config.TokenURL := AuthConfig.TokenURL auth |} in
    NewClient more ctx base ws (Some auth) (ticks ds)
    = ([],
       Returned {| baseURL := base;
                   wsURL := ws;
                   httpClient := Config_Client more conf ctx;
                   tokenSource := Config_TokenSource more conf ctx;
                   notifyTick := last ds 500000000%Z |}).
Proof.
  intros Context more ctx base ws auth ds conf.
  unfold NewClient, ret. rewrite fold_ticks. reflexivity.
Qed.

(** X16. A client whose tick is not positive cannot subscribe: with the token in
    hand and the websocket dialed, [OrdersNotifications] panics when it
    makes its ticker.  No goroutine is started and nothing closes the
    connection that was just opened. *)
Theorem nonpositive_tick_panics_after_dial :
  forall (Context : Type) (lib : Imports Context) (c : Client) (ctx : Context)
    (req : option OrdersNotificationsRequest.t) (os : Chan)
    (sched : list selected) (tok : Token.t) (wc : Conn),
    (notifyTick c <= 0)%Z ->
    Token (tokenSource c) tt = Ok tok ->
    websocket_Dial lib ctx (endpoint c req)
      [("Authorization", ["Bearer " ++ Token.AccessToken tok])] = Ok wc ->
    OrdersNotifications lib c ctx req os
    = ([EvToken;
        EvDial (endpoint c req)
          [("Authorization", ["Bearer " ++ Token.AccessToken tok])]],
       Panicked "non-positive interval for NewTicker")
    /\ spawned (trace (OrdersNotifications lib c ctx req os)) = []
    /\ closes (subscription lib c ctx req os sched) = []
    /\ deliveries os (subscription lib c ctx req os sched) = [].
Proof.
  intros Context lib c ctx req os sched tok wc Htick Htok Hdial.
  unfold subscription. rewrite OrdersNotifications_eq, Htok. cbv zeta.
  unfold newAuthorizationHeaderFrom. rewrite Hdial.
  destruct (Z.leb_spec (notifyTick c) 0); [ | lia ].
  repeat split.
Qed.

Lemma nonpositive_tick_witness :
  OrdersNotifications Demo.lib
    {| baseURL := SandboxBaseURL; wsURL := SandboxWebsocketURL;
       httpClient := Demo.server; tokenSource := Demo.tokens;
       notifyTick := 0%Z |}
    tt None Demo.sink
  = ([EvToken;
      EvDial "wss://api.monerium.dev/orders"
        [("Authorization", ["Bearer s3cr3t"])]],
     Panicked "non-positive interval for NewTicker").
Proof.
  exact (proj1 (@nonpositive_tick_panics_after_dial Demo.Context Demo.lib
    {| baseURL := SandboxBaseURL; wsURL := SandboxWebsocketURL;
       httpClient := Demo.server; tokenSource := Demo.tokens;
       notifyTick := 0%Z |}
    tt None Demo.sink [] {| Token.AccessToken := "s3cr3t" |} 1
    ltac:(vm_compute; discriminate) eq_refl eq_refl)).
Defined.

(** ** Validation of an order *)

(** X17. [Validate] looks at the kind, at whether there is a counterpart, and at
    the message, signature, account, chain, currency and address: the
    amount, the memo, the supporting document and the content of the
    counterpart do not change its verdict. *)
Theorem Validate_ignores_the_amount :
  forall (r r' : PlaceOrderRequest.t),
    same_for_Validate r r' ->
    PlaceOrderRequest.Validate (Some r) = PlaceOrderRequest.Validate (Some r').
Proof.
  intros r r' (Hk & Hc & Hm & Hs & Ha & Hch & Hcu & Had).
  unfold PlaceOrderRequest.Validate.
  rewrite Hk, Hm, Hs, Ha, Hch, Hcu, Had.
  destruct (PlaceOrderRequest.Counterpart r) as [cp | ],
           (PlaceOrderRequest.Counterpart r') as [cp' | ];
    try reflexivity; exfalso.
  - assert (H : Some cp = None) by (apply Hc; reflexivity). discriminate.
  - assert (H : Some cp' = None) by (apply Hc; reflexivity). discriminate.
Qed.

Lemma Validate_ignores_the_amount_witness :
  PlaceOrderRequest.Validate (Some Demo.redeem)
  = PlaceOrderRequest.Validate
      (Some {| PlaceOrderRequest.Address := EmptyString;
               PlaceOrderRequest.Currency := EmptyString;
               PlaceOrderRequest.Chain := EmptyString;
               PlaceOrderRequest.AccountID :=
                 "3cef7bfc-8779-11ed-ac14-4a76448b7b21";
               PlaceOrderRequest.Kind := OrderKindRedeem;
               PlaceOrderRequest.Amount := EmptyString;
               PlaceOrderRequest.Signature := "0x5f";
               PlaceOrderRequest.Message := "Send EUR 1 to GR16 at 2023";
               PlaceOrderRequest.Counterpart := Some Counterpart.zero;
               PlaceOrderRequest.Memo := "rent";
               PlaceOrderRequest.SupportingDocumentID := EmptyString |}).
Proof.
  apply Validate_ignores_the_amount.
  unfold same_for_Validate. simpl.
  repeat split; try reflexivity; discriminate.
Defined.
